(** * Status bot: the polling and presentation pipeline of [bot.py]

    A shallow embedding of [check_tcp_port], [fetch_status_message],
    [get_time_of_day_via_rcon], [format_status], [fetch_server_status],
    [on_ready], [start_bot], [update_status] and [manual_status], and the
    properties of the status pipeline proved on it.

    Conventions.
    - A Python [str] is a [string].  Text that is only stored, compared by
      prefix, concatenated and shown (labels, banners, the rendered report)
      is held as its UTF-8 bytes; these operations commute with the encoding.
      The RCON reply, the one text that is inspected character by character
      ([strip], [split], [int]), is read one character per code point, for
      code points below 256.
    - A Python [int] is a [Z].
    - Every call that leaves the process (socket, status and query
      protocols, RCON session, chat platform) is answered by a [World], the
      oracle of one poll cycle, and recorded as an [event] in the output of
      the process state.  Exceptions are values: a computation returns
      [inl e] when it raises [e].  Only subclasses of [Exception] are
      modelled, the ones an [except Exception] clause catches.
    - [await] is sequencing: one coroutine is followed from start to end. *)

From Stdlib Require Import ZArith List Bool Ascii String Lia.
From Stdlib Require Import DecimalString DecimalPos DecimalZ.
Import ListNotations.

Local Open Scope string_scope.
Local Open Scope Z_scope.

(** ** Text *)

Module Text.

(** The line feed of ["\n".join(lines)]. *)
Definition nl : string := String (ascii_of_nat 10) "".

(** [str(n)] and the [{n}] of an f-string, for an [int]. *)
Definition str_of_int (n : Z) : string := NilZero.string_of_int (Z.to_int n).

(** Truth value of a [str]: the empty string is false. *)
Definition truthy (s : string) : bool :=
  match s with
  | EmptyString => false
  | String _ _ => true
  end.

(** [x or d] for [x : str | None]. *)
Definition or_default (x : option string) (d : string) : string :=
  match x with
  | Some s => if truthy s then s else d
  | None => d
  end.

(** [lines.extend(more)] and [lines.append(x)] as [extend lines [x]]. *)
Definition extend (lines more : list string) : list string := app lines more.

(** [s.startswith(p)]. *)
Definition startswith (s p : string) : bool := String.prefix p s.

(** [sep.join(items)]. *)
Fixpoint join (sep : string) (items : list string) : string :=
  match items with
  | [] => ""
  | [x] => x
  | x :: rest => x ++ sep ++ join sep rest
  end.

(** [str.isspace] on one character (code points below 256): the ASCII
    white space 9-13, 28-32, then NEL (133) and NBSP (160). *)
Definition isspace (c : ascii) : bool :=
  let n := nat_of_ascii c in
  ((9 <=? n) && (n <=? 13) || (28 <=? n) && (n <=? 32)
   || (n =? 133) || (n =? 160))%nat.

Fixpoint lstrip (s : string) : string :=
  match s with
  | EmptyString => ""
  | String c r => if isspace c then lstrip r else s
  end.

(** [rstrip] keeps a character when it is not white space or when
    something survives after it. *)
Fixpoint rstrip (s : string) : string :=
  match s with
  | EmptyString => ""
  | String c r =>
      match rstrip r with
      | EmptyString => if isspace c then "" else String c ""
      | kept => String c kept
      end
  end.

(** [s.strip()]. *)
Definition strip (s : string) : string := rstrip (lstrip s).

(** [s.split()]: the maximal runs of characters that are not white space.
    [cur] is the run being read. *)
Fixpoint split_from (cur : string) (s : string) : list string :=
  match s with
  | EmptyString => if truthy cur then [cur] else []
  | String c r =>
      if isspace c
      then (if truthy cur then cur :: split_from "" r else split_from "" r)
      else split_from (cur ++ String c "") r
  end.

Definition split (s : string) : list string := split_from "" s.

(** ASCII decimal digit and its value. *)
Definition is_digit (c : ascii) : bool :=
  let n := nat_of_ascii c in ((48 <=? n) && (n <=? 57))%nat.

Definition digit_value (c : ascii) : Z := Z.of_nat (nat_of_ascii c) - 48.

(** The digit scan of [int(s)] in base 10.  It reads digits, with single
    underscores allowed between two digits only, and stops at the first
    character that is neither.  [after_digit] tells whether the previous
    character was a digit.  The result is the value read, the number of
    digit characters and the unread rest; [None] when an underscore is
    misplaced or no digit was read. *)
Fixpoint scan_digits (after_digit : bool) (acc : Z) (ndigits : nat)
         (s : string) : option (Z * nat * string) :=
  match s with
  | EmptyString => if after_digit then Some (acc, ndigits, "") else None
  | String c r =>
      if is_digit c
      then scan_digits true (10 * acc + digit_value c) (S ndigits) r
      else if Ascii.eqb c "_"
           then (if after_digit then scan_digits false acc ndigits r else None)
           else (if after_digit then Some (acc, ndigits, s) else None)
  end.

(** [repr] of a [str] over code points below 256: quote choice, escapes,
    [\xhh] for the characters that are not printable. *)
Definition hex_digit (n : nat) : ascii :=
  ascii_of_nat (if (n <? 10)%nat then 48 + n else 87 + n)%nat.

Definition printable (c : ascii) : bool :=
  let n := nat_of_ascii c in
  ((32 <=? n) && (n <? 127) || (161 <=? n) && negb (n =? 173))%nat.

Fixpoint count_char (q : ascii) (s : string) : nat :=
  match s with
  | EmptyString => O
  | String c r => ((if Ascii.eqb c q then 1 else 0) + count_char q r)%nat
  end.

Definition backslash : ascii := ascii_of_nat 92.

Fixpoint repr_body (quote : ascii) (s : string) : string :=
  match s with
  | EmptyString => ""
  | String c r =>
      let n := nat_of_ascii c in
      (if Ascii.eqb c quote || Ascii.eqb c backslash
       then String backslash (String c "")
       else if (n =? 9)%nat then String backslash "t"
       else if (n =? 10)%nat then String backslash "n"
       else if (n =? 13)%nat then String backslash "r"
       else if printable c then String c ""
       else String backslash (String "x"
              (String (hex_digit (n / 16)) (String (hex_digit (n mod 16)) ""))))
      ++ repr_body quote r
  end.

Definition squote : ascii := "'".
Definition dquote : ascii := ascii_of_nat 34.

Definition repr (s : string) : string :=
  let quote : ascii :=
    if ((0 <? count_char squote s) && (count_char dquote s =? 0))%nat
    then dquote else squote in
  String quote (repr_body quote s ++ String quote "").

End Text.

Import Text.

(** ** Exceptions, collaborators and process state *)

(** A raised exception: [type(e).__name__] and [str(e)]. *)
Record exn : Type := Exn { exn_type : string; exn_str : string }.

(** [discord.Message], [discord.TextChannel] and [commands.Context], each
    known by an identifier. *)
Inductive Message : Type := Msg (id : Z).
Inductive Channel : Type := Chan (id : Z).
Inductive Context : Type := Ctx (id : Z).

(** What [server.async_status()] answers: [status.players.online] and
    [status.players.max]. *)
Record StatusResponse : Type := {
  players_online : Z;
  players_max : Z
}.

(** What [server.async_query()] answers.  [q_motd_raw] is the attribute
    [query.motd.raw] when the object has one, [q_motd_str] is
    [str(query.motd)]; [q_players_list] is [query.players.list or []], a
    missing list being the empty one; [q_map_name] and [q_gamemode] are the
    attributes [query.map_name] and [query.software.gamemode] when
    present. *)
Record QueryResponse : Type := {
  q_motd_raw : option string;
  q_motd_str : string;
  q_players_list : list string;
  q_map_name : option string;
  q_gamemode : option string
}.

(** The calls that leave the process, in the order of the source. *)
Inductive event : Type :=
| Print (text : string)
| SocketConnect (ip : string) (port : Z)
| ServerStatus (ip : string) (port : Z) (query_port : Z)
| ServerQuery (ip : string) (port : Z) (query_port : Z)
| RconConnect (ip : string) (port : Z)
| RconLogin (password : string)
| RconRun (command : string)
| RconClose
| FetchChannel (id : Z)
| MessageEdit (m : Message) (content : string)
| ChannelSend (c : Channel) (content : string)
| ContextSend (ctx : Context) (content : string).

(** The answers of the outside during one poll cycle.  [None] in an
    [option exn] is success. *)
Record World : Type := {
  create_connection : string -> Z -> option exn;
  async_status : string -> Z -> Z -> exn + StatusResponse;
  async_query : string -> Z -> Z -> exn + QueryResponse;
  rcon_connect : string -> Z -> option exn;
  rcon_login : string -> option exn;
  rcon_run : string -> exn + string;
  fetch_channel : Z -> exn + Channel;
  message_edit : Message -> string -> option exn;
  channel_send : Channel -> string -> exn + Message;
  context_send : Context -> string -> option exn
}.

(** The process state: the module-level [status_message] and everything
    the process has emitted so far, oldest first. *)
Record State : Type := {
  status_message : option Message;
  output : list event
}.

Definition emit_on (st : State) (evs : list event) : State :=
  {| status_message := status_message st; output := output st ++ evs |}.

(** ** The monad of the embedding: world reader, state, exceptions *)

Definition M (A : Type) : Type := World -> State -> State * (exn + A).

Definition ret {A} (a : A) : M A := fun _ st => (st, inr a).

Definition bind {A B} (m : M A) (f : A -> M B) : M B :=
  fun w st =>
    match m w st with
    | (st', inr a) => f a w st'
    | (st', inl e) => (st', inl e)
    end.

Definition raise {A} (e : exn) : M A := fun _ st => (st, inl e).

(** [try: body / except Exception as e: handler(e)]. *)
Definition try_except {A} (body : M A) (handler : exn -> M A) : M A :=
  fun w st =>
    match body w st with
    | (st', inl e) => handler e w st'
    | done => done
    end.

(** [body] followed by [cleanup] whether [body] returns or raises. *)
Definition finally {A} (body : M A) (cleanup : M unit) : M A :=
  fun w st =>
    match body w st with
    | (st', r) =>
        match cleanup w st' with
        | (st'', inr _) => (st'', r)
        | (st'', inl e) => (st'', inl e)
        end
    end.

Notation "x <- m ;; k" := (bind m (fun x => k))
  (at level 61, m at next level, right associativity).
Notation "m ;; k" := (bind m (fun _ => k))
  (at level 61, right associativity).

Definition emit (e : event) : M unit := fun _ st => (emit_on st [e], inr tt).

(** A call answered by the world with a value or an exception. *)
Definition call {A} (e : event) (answer : World -> exn + A) : M A :=
  fun w st => (emit_on st [e], answer w).

(** A call answered by the world with success or an exception. *)
Definition call_unit (e : event) (answer : World -> option exn) : M unit :=
  call e (fun w => match answer w with Some x => inl x | None => inr tt end).

Definition lift {A} (r : exn + A) : M A := fun _ st => (st, r).

Definition get_status_message : M (option Message) :=
  fun _ st => (st, inr (status_message st)).

Definition set_status_message (m : Message) : M unit :=
  fun _ st => ({| status_message := Some m; output := output st |}, inr tt).

Definition print (text : string) : M unit := emit (Print text).

(** A [try] block as a sequence of statements over its local variables
    [L]: when a statement raises, the assignments made by the statements
    before it stay in place and the handler runs on them. *)
Fixpoint run_block {L} (stmts : list (L -> M L)) (vars : L)
  : World -> State -> State * (exn * L + L) :=
  fun w st =>
    match stmts with
    | [] => (st, inr vars)
    | stmt :: rest =>
        match stmt vars w st with
        | (st', inr vars') => run_block rest vars' w st'
        | (st', inl e) => (st', inl (e, vars))
        end
    end.

Definition try_block {L} (stmts : list (L -> M L))
           (handler : exn -> L -> M L) (vars : L) : M L :=
  fun w st =>
    match run_block stmts vars w st with
    | (st', inr vars') => (st', inr vars')
    | (st', inl (e, vars')) => handler e vars' w st'
    end.

(** ** Configuration *)

(** The module-level constants read from the process environment, and the
    interpreter's limit on the digits of an integer literal
    ([PYTHONINTMAXSTRDIGITS], 4300 unless set, 0 for no limit). *)
Record Config : Type := {
  CHANNEL_ID : Z;
  HOST_IP : string;
  HOST_PORT : Z;
  SERVER_PORT : Z;
  QUERY_PORT : Z;
  RCON_PORT : Z;
  RCON_PASS : string;
  MC_VERSION : string;
  int_max_str_digits : nat
}.

(** The dictionary returned by [fetch_server_status]. *)
Record StatusData : Type := {
  host_is_up : bool;
  mc_status : string;
  motd : option string;
  time_label : option string;
  game_mode : option string;
  map_name : option string;
  players : string;
  player_list : list string
}.

(** ** The program *)

(** The literals of the source. *)
Definition ONLINE_GLYPH : string := "🟢".
Definition MC_ONLINE : string := "🟢 Online".
Definition MC_OFFLINE : string := "🔴 Offline or Unreachable".
Definition RCON_NOT_CONFIGURED : string := "🚫 RCON not configured".
Definition RCON_UNAVAILABLE : string := "⚠️ RCON unavailable".
Definition MORNING : string := "🌞 Morning".
Definition MIDDAY : string := "☀️ Midday".
Definition EVENING : string := "🌇 Evening".
Definition NIGHT : string := "🌙 Night".
Definition FALLBACK : string := "🔴 Host down — Eggroll fell off the grid. 🌐".

(** [items[-1]]. *)
Fixpoint last_item (items : list string) : exn + string :=
  match items with
  | [] => inl (Exn "IndexError" "list index out of range")
  | [x] => inr x
  | _ :: rest => last_item rest
  end.

(** The [ValueError] of [int] for a malformed literal; the [repr] is cut at
    200 characters. *)
Definition invalid_literal (s : string) : exn :=
  Exn "ValueError"
      ("invalid literal for int() with base 10: " ++ substring 0 200 (repr s)).

(** The [ValueError] of [int] for a literal with too many digits. *)
Definition too_many_digits (limit ndigits : nat) : exn :=
  Exn "ValueError"
      ("Exceeds the limit (" ++ str_of_int (Z.of_nat limit)
       ++ " digits) for integer string conversion: value has "
       ++ str_of_int (Z.of_nat ndigits)
       ++ " digits; use sys.set_int_max_str_digits() to increase the limit").

(** [int(s)] for a [str] without white space, as [split] yields them: an
    optional sign, then the digit scan; the digit limit, looked at for
    literals of more than 640 digits, is checked before the rest of the
    literal. *)
Definition py_int (limit : nat) (s : string) : exn + Z :=
  let '(negative, body) :=
    match s with
    | String "+" r => (false, r)
    | String "-" r => (true, r)
    | _ => (false, s)
    end in
  match scan_digits false 0 0 body with
  | None => inl (invalid_literal s)
  | Some (v, ndigits, rest) =>
      if ((640 <? ndigits) && (0 <? limit) && (limit <? ndigits))%nat
      then inl (too_many_digits limit ndigits)
      else if truthy rest then inl (invalid_literal s)
      else inr (if negative then - v else v)
  end.

(** The [if]/[elif] chain of [get_time_of_day_via_rcon]. *)
Definition label_of_ticks (ticks : Z) : string :=
  if ticks <? 6000 then MORNING
  else if ticks <? 12000 then MIDDAY
  else if ticks <? 18000 then EVENING
  else NIGHT.

Section Program.

Variable cfg : Config.

Definition check_tcp_port (ip : string) (port : Z) (label : string) : M bool :=
  try_except
    (call_unit (SocketConnect ip port) (fun w => create_connection w ip port) ;;
     print ("[DEBUG] " ++ label ++ " " ++ str_of_int port
            ++ " reachable on " ++ ip) ;;
     ret true)
    (fun e =>
       print ("[WARN] " ++ label ++ " check failed: " ++ exn_str e) ;;
       ret false).

(** [int(response.strip().split()[-1])]. *)
Definition parse_ticks (response : string) : exn + Z :=
  match last_item (split (strip response)) with
  | inl e => inl e
  | inr token => py_int (int_max_str_digits cfg) token
  end.

(** [with Client(ip, port) as client: body]: the session is opened, and
    closed when [body] is left, by return or by exception. *)
Definition with_client {A} (ip : string) (port : Z) (body : M A) : M A :=
  call_unit (RconConnect ip port) (fun w => rcon_connect w ip port) ;;
  finally body (emit RconClose).

Definition get_time_of_day_via_rcon (ip : string) (port : Z)
           (password : string) : M string :=
  if negb (truthy password)
  then
    print "[WARN] RCON password not set, skipping time query." ;;
    ret RCON_NOT_CONFIGURED
  else
    try_except
      (with_client ip port
         (call_unit (RconLogin password) (fun w => rcon_login w password) ;;
          response <- call (RconRun "time query daytime")
                           (fun w => rcon_run w "time query daytime") ;;
          ticks <- lift (parse_ticks response) ;;
          ret (label_of_ticks ticks)))
      (fun e =>
         print ("[WARN] RCON time query failed: " ++ exn_type e ++ ": "
                ++ exn_str e) ;;
         ret RCON_UNAVAILABLE).

(** The list [lines] of [format_status] just before it is joined. *)
Definition format_status_lines
           (mc_status players : string) (player_list : list string)
           (motd time_label game_mode map_name : option string)
           (host_is_up : bool) : list string :=
  let motd := or_default motd "Unknown" in
  let time_label := or_default time_label "Unknown" in
  let game_mode := or_default game_mode "Unknown" in
  let map_name := or_default map_name "Unknown" in
  let lines :=
    [ "# **Server Stats**";
      "";
      "> **Minecraft Server**:";
      "> " ++ mc_status ] in
  let lines :=
    if startswith mc_status ONLINE_GLYPH
    then extend lines
         [ "> Players: " ++ players;
           "> Online Players: "
             ++ match player_list with
                | [] => "(none)"
                | _ :: _ => join ", " player_list
                end;
           "> MOTD: " ++ motd;
           "> Time of Day: " ++ time_label;
           "> Map: " ++ map_name;
           "> Version: " ++ MC_VERSION cfg;
           "> Game Mode: " ++ game_mode ]
    else extend lines [ "> Version: " ++ MC_VERSION cfg ] in
  extend lines
  [ "";
    "> **Host Server**:";
    "> " ++ (if host_is_up then "🟢 Online" else "🔴 Offline");
    "> Host IP: " ++ HOST_IP cfg;
    "> Host Port: " ++ str_of_int (HOST_PORT cfg) ].

Definition format_status
           (mc_status players : string) (player_list : list string)
           (motd time_label game_mode map_name : option string)
           (host_is_up : bool) : string :=
  join nl (format_status_lines mc_status players player_list
                               motd time_label game_mode map_name host_is_up).

(** [format_status] on the entries of the dictionary, as both callers
    apply it. *)
Definition render (data : StatusData) : string :=
  format_status (mc_status data) (players data) (player_list data)
                (motd data) (time_label data) (game_mode data)
                (map_name data) (host_is_up data).

(** The local variables of [fetch_server_status] as first assigned. *)
Definition initial_vars (host_is_up : bool) : StatusData :=
  {| host_is_up := host_is_up;
     mc_status := MC_OFFLINE;
     motd := None;
     time_label := None;
     game_mode := None;
     map_name := None;
     players := "None";
     player_list := [] |}.

(** [getattr(obj, name, default)] on an attribute that may be missing. *)
Definition getattr (attribute : option string) (default : string) : string :=
  match attribute with
  | Some v => v
  | None => default
  end.

(** The first statements of the [try] block: both queries, then the
    assignments from their answers. *)
Definition query_server (vars : StatusData) : M StatusData :=
  status <- call (ServerStatus (HOST_IP cfg) (SERVER_PORT cfg) (QUERY_PORT cfg))
                 (fun w => async_status w (HOST_IP cfg) (SERVER_PORT cfg)
                                        (QUERY_PORT cfg)) ;;
  query <- call (ServerQuery (HOST_IP cfg) (SERVER_PORT cfg) (QUERY_PORT cfg))
                (fun w => async_query w (HOST_IP cfg) (SERVER_PORT cfg)
                                      (QUERY_PORT cfg)) ;;
  ret {| host_is_up := host_is_up vars;
         mc_status := MC_ONLINE;
         motd := Some (getattr (q_motd_raw query) (q_motd_str query));
         time_label := time_label vars;
         game_mode := Some (getattr (q_gamemode query) "Survival");
         map_name := Some (getattr (q_map_name query) "Unknown");
         players := str_of_int (players_online status) ++ "/"
                    ++ str_of_int (players_max status);
         player_list := q_players_list query |}.

(** The last statement of the [try] block. *)
Definition query_time (vars : StatusData) : M StatusData :=
  label <- get_time_of_day_via_rcon (HOST_IP cfg) (RCON_PORT cfg)
                                    (RCON_PASS cfg) ;;
  ret {| host_is_up := host_is_up vars;
         mc_status := mc_status vars;
         motd := motd vars;
         time_label := Some label;
         game_mode := game_mode vars;
         map_name := map_name vars;
         players := players vars;
         player_list := player_list vars |}.

Definition fetch_server_status : M StatusData :=
  host_is_up <- check_tcp_port (HOST_IP cfg) (HOST_PORT cfg) "Host" ;;
  let vars := initial_vars host_is_up in
  if negb host_is_up
  then ret {| host_is_up := false;
              mc_status := mc_status vars;
              motd := motd vars;
              time_label := time_label vars;
              game_mode := game_mode vars;
              map_name := map_name vars;
              players := players vars;
              player_list := player_list vars |}
  else
    try_block [query_server; query_time]
      (fun e vars =>
         print ("[WARN] Server query failed: " ++ exn_type e ++ ": "
                ++ exn_str e) ;;
         ret vars)
      vars.

(** One run of the body of the [tasks.loop]. *)
Definition update_status : M unit :=
  channel <- call (FetchChannel (CHANNEL_ID cfg))
                  (fun w => fetch_channel w (CHANNEL_ID cfg)) ;;
  data <- fetch_server_status ;;
  if negb (host_is_up data)
  then
    let fallback := FALLBACK in
    try_except
      (held <- get_status_message ;;
       match held with
       | Some m =>
           call_unit (MessageEdit m fallback)
                     (fun w => message_edit w m fallback)
       | None =>
           m <- call (ChannelSend channel fallback)
                     (fun w => channel_send w channel fallback) ;;
           set_status_message m
       end)
      (fun e => print ("[ERROR] Discord fallback failed: " ++ exn_str e))
  else
    let message := render data in
    try_except
      (print ("[DEBUG] Final message:" ++ nl ++ " " ++ message) ;;
       held <- get_status_message ;;
       match held with
       | Some m =>
           call_unit (MessageEdit m message)
                     (fun w => message_edit w m message)
       | None =>
           m <- call (ChannelSend channel message)
                     (fun w => channel_send w channel message) ;;
           set_status_message m
       end ;;
       print "[DEBUG] Status updated")
      (fun e => print ("[ERROR] Discord update failed: " ++ exn_str e)).

(** The [!mcstatus] command. *)
Definition manual_status (ctx : Context) : M unit :=
  data <- fetch_server_status ;;
  let message := render data in
  call_unit (ContextSend ctx message) (fun w => context_send w ctx message).

(** The scheduled path over successive poll cycles, one world per tick:
    the loop runs [update_status] at each tick and ends at the first tick
    that raises. *)
Fixpoint run_ticks (ticks : list World) (st : State) : State * (exn + unit) :=
  match ticks with
  | [] => (st, inr tt)
  | w :: later =>
      match update_status w st with
      | (st', inr _) => run_ticks later st'
      | (st', inl e) => (st', inl e)
      end
  end.

End Program.

(** ** Observing a computation *)

(** A state in which nothing has happened yet and no message is held. *)
Definition fresh : State := {| status_message := None; output := [] |}.

(** What a computation emits and how it ends when run on its own. *)
Definition events_of {A} (m : M A) (w : World) : list event :=
  output (fst (m w fresh)).

Definition result_of {A} (m : M A) (w : World) : exn + A :=
  snd (m w fresh).

(** A computation that neither reads nor writes [status_message]: from any
    state it adds its own events and ends the same way. *)
Definition handle_free {A} (m : M A) : Prop :=
  forall w st, m w st = (emit_on st (events_of m w), result_of m w).

(** The number of edits and of channel posts in an output. *)
Definition is_edit (e : event) : bool :=
  match e with MessageEdit _ _ => true | _ => false end.

Definition is_channel_send (e : event) : bool :=
  match e with ChannelSend _ _ => true | _ => false end.

Definition is_rcon (e : event) : bool :=
  match e with
  | RconConnect _ _ | RconLogin _ | RconRun _ | RconClose => true
  | _ => false
  end.

Definition is_server_query (e : event) : bool :=
  match e with ServerStatus _ _ _ | ServerQuery _ _ _ => true | _ => false end.

Definition count (p : event -> bool) (evs : list event) : nat :=
  List.length (filter p evs).

(** The two queries of a cycle taken together: the answers of both, or the
    exception of the first that fails. *)
Definition query_outcome (cfg : Config) (w : World)
  : exn + (StatusResponse * QueryResponse) :=
  match async_status w (HOST_IP cfg) (SERVER_PORT cfg) (QUERY_PORT cfg) with
  | inl e => inl e
  | inr status =>
      match async_query w (HOST_IP cfg) (SERVER_PORT cfg) (QUERY_PORT cfg) with
      | inl e => inl e
      | inr query => inr (status, query)
      end
  end.

(** The field labels of the online block of the report. *)
Definition FIELD_LABELS : list string :=
  [ "> Players:"; "> Online Players:"; "> MOTD:"; "> Time of Day:";
    "> Map:"; "> Game Mode:" ].

Definition carries_field_label (line : string) : bool :=
  existsb (startswith line) FIELD_LABELS.

(** The events of an RCON session that gets as far as the reply. *)
Definition session_events (ip : string) (port : Z) (password : string)
  : list event :=
  [ RconConnect ip port; RconLogin password; RconRun "time query daytime";
    RconClose ].

(** The labels the resolver can return. *)
Definition TIME_LABELS : list string :=
  [ MORNING; MIDDAY; EVENING; NIGHT; RCON_NOT_CONFIGURED; RCON_UNAVAILABLE ].

(** The events of a reachable host probe, and of the two queries up to
    the first that fails. *)
Definition probe_ok_events (cfg : Config) : list event :=
  [ SocketConnect (HOST_IP cfg) (HOST_PORT cfg);
    Print ("[DEBUG] Host " ++ str_of_int (HOST_PORT cfg)
           ++ " reachable on " ++ HOST_IP cfg) ].

Definition query_events (cfg : Config) (w : World) : list event :=
  match async_status w (HOST_IP cfg) (SERVER_PORT cfg) (QUERY_PORT cfg) with
  | inl _ => [ ServerStatus (HOST_IP cfg) (SERVER_PORT cfg) (QUERY_PORT cfg) ]
  | inr _ => [ ServerStatus (HOST_IP cfg) (SERVER_PORT cfg) (QUERY_PORT cfg);
               ServerQuery (HOST_IP cfg) (SERVER_PORT cfg) (QUERY_PORT cfg) ]
  end.

(** The run of the resolver inside [fetch_server_status]. *)
Definition resolve_time (cfg : Config) : M string :=
  get_time_of_day_via_rcon cfg (HOST_IP cfg) (RCON_PORT cfg) (RCON_PASS cfg).

(** The snapshot of a cycle whose queries answered and whose resolver
    returned [label]. *)
Definition online_snapshot (status : StatusResponse) (query : QueryResponse)
           (label : string) : StatusData :=
  {| host_is_up := true;
     mc_status := MC_ONLINE;
     motd := Some (getattr (q_motd_raw query) (q_motd_str query));
     time_label := Some label;
     game_mode := Some (getattr (q_gamemode query) "Survival");
     map_name := Some (getattr (q_map_name query) "Unknown");
     players := str_of_int (players_online status) ++ "/"
                ++ str_of_int (players_max status);
     player_list := q_players_list query |}.

(** Calls to the chat platform. *)
Definition is_chat (e : event) : bool :=
  match e with
  | FetchChannel _ | MessageEdit _ _ | ChannelSend _ _ | ContextSend _ _ => true
  | _ => false
  end.

(** The text the scheduled path publishes for a snapshot, and what it
    prints when the chat platform rejects it. *)
Definition published_text (cfg : Config) (data : StatusData) : string :=
  if host_is_up data then render cfg data else FALLBACK.

Definition publish_error (data : StatusData) (e : exn) : string :=
  if host_is_up data
  then "[ERROR] Discord update failed: " ++ exn_str e
  else "[ERROR] Discord fallback failed: " ++ exn_str e.

(** What one scheduled tick emits around the edit of a held message [m],
    after the channel is fetched and the snapshot assembled. *)
Definition edit_events (cfg : Config) (w : World) (data : StatusData)
           (m : Message) : list event :=
  let text := published_text cfg data in
  ((if host_is_up data
    then [ Print ("[DEBUG] Final message:" ++ nl ++ " " ++ text) ]
    else [])
   ++ [ MessageEdit m text ]
   ++ match message_edit w m text with
      | Some e => [ Print (publish_error data e) ]
      | None => if host_is_up data then [ Print "[DEBUG] Status updated" ]
                else []
      end)%list.

(** ** Sample configuration and worlds *)

Module Sample.

Definition cfg : Config :=
  {| CHANNEL_ID := 42;
     HOST_IP := "10.0.0.7";
     HOST_PORT := 22;
     SERVER_PORT := 25565;
     QUERY_PORT := 25525;
     RCON_PORT := 25575;
     RCON_PASS := "secret";
     MC_VERSION := "1.20.4";
     int_max_str_digits := 4300 |}.

Definition timeout : exn := Exn "TimeoutError" "timed out".
Definition refused : exn := Exn "ConnectionRefusedError" "[Errno 111] Connection refused".
Definition rejected : exn := Exn "HTTPException" "429 Too Many Requests".

Definition status : StatusResponse :=
  {| players_online := 3; players_max := 20 |}.

Definition query : QueryResponse :=
  {| q_motd_raw := Some "Welcome";
     q_motd_str := "Welcome";
     q_players_list := ["Alice"; "Bob"; "Carol"];
     q_map_name := Some "world";
     q_gamemode := None |}.

(** A world built from the answers that vary between scenarios; the
    channel is found, a post returns message 7, the command reply goes
    through. *)
Definition world (host : option exn) (status_answer : exn + StatusResponse)
           (reply : exn + string) (edit : option exn) : World :=
  {| create_connection := fun _ _ => host;
     async_status := fun _ _ _ => status_answer;
     async_query := fun _ _ _ => inr query;
     rcon_connect := fun _ _ => None;
     rcon_login := fun _ => None;
     rcon_run := fun _ => reply;
     fetch_channel := fun id => inr (Chan id);
     message_edit := fun _ _ => edit;
     channel_send := fun _ _ => inr (Msg 7);
     context_send := fun _ _ => None |}.

(** Everything answers; the RCON reply is given. *)
Definition up (reply : string) : World :=
  world None (inr status) (inr reply) None.

(** The host answers, the status query times out. *)
Definition query_down : World :=
  world None (inl timeout) (inr "The time is 7000") None.

(** The host does not answer. *)
Definition host_down : World :=
  world (Some refused) (inr status) (inr "The time is 7000") None.

(** Everything answers but the chat platform rejects the edit. *)
Definition edit_rejected : World :=
  world None (inr status) (inr "The time is 7000") (Some rejected).

(** The host does not answer and the chat platform rejects the edit. *)
Definition host_down_edit_rejected : World :=
  world (Some refused) (inr status) (inr "The time is 7000") (Some rejected).

(** The process holds message 1 and has emitted nothing. *)
Definition holding : State := {| status_message := Some (Msg 1); output := [] |}.

End Sample.

(** ** Start-up

    [fetch_status_message], [start_bot] and [on_ready].  Their calls to the
    chat session that the poll cycle does not make (the history of the
    channel, the two calls on the loop object) are answered by an [Env]
    next to the [World], and logged in order with the events of the
    cycle. *)

Module Boot.

(** [discord.User]: compared by identifier, shown by [str]. *)
Record User : Type := { user_id : Z; user_str : string }.

(** [msg.author == bot.user]. *)
Definition same_user (a b : User) : bool := user_id a =? user_id b.

Inductive startup_call : Type :=
| ChannelHistory (c : Channel) (limit : Z)
| ChangeInterval (seconds : Z)
| LoopStart.

Inductive entry : Type :=
| Core (e : event)
| Startup (c : startup_call).

(** [LOOP_INTERVAL], [bot.user], and the answers of
    [channel.history(limit=n)] (newest message first, each with its
    author), [update_status.change_interval] and [update_status.start]. *)
Record Env : Type := {
  LOOP_INTERVAL : Z;
  bot_user : User;
  channel_history : Channel -> Z -> exn + list (Message * User);
  change_interval : Z -> option exn;
  loop_start : option exn
}.

(** The module-level [status_message] and the log of the process. *)
Record BootState : Type := {
  held : option Message;
  log : list entry
}.

Definition B (A : Type) : Type :=
  Env -> World -> BootState -> BootState * (exn + A).

Definition bret {A} (a : A) : B A := fun _ _ st => (st, inr a).

Definition bbind {A C} (m : B A) (f : A -> B C) : B C :=
  fun env w st =>
    match m env w st with
    | (st', inr a) => f a env w st'
    | (st', inl e) => (st', inl e)
    end.

Definition btry {A} (body : B A) (handler : exn -> B A) : B A :=
  fun env w st =>
    match body env w st with
    | (st', inl e) => handler e env w st'
    | done => done
    end.

(** A computation of the poll cycle run at start-up: it sees the held
    message, and its events are appended to the log. *)
Definition of_cycle {A} (m : M A) : B A :=
  fun _ w st =>
    match m w {| status_message := held st; output := [] |} with
    | (st', r) =>
        ({| held := status_message st';
            log := log st ++ map Core (output st') |}, r)
    end.

Definition startup {A} (c : startup_call) (answer : Env -> exn + A) : B A :=
  fun env _ st =>
    ({| held := held st; log := log st ++ [Startup c] |}, answer env).

Definition startup_unit (c : startup_call) (answer : Env -> option exn)
  : B unit :=
  startup c (fun env =>
               match answer env with Some x => inl x | None => inr tt end).

(** [status_message = value]. *)
Definition assign_status_message (value : option Message) : B unit :=
  fun _ _ st => ({| held := value; log := log st |}, inr tt).

Definition ask : B Env := fun env _ st => (st, inr env).

Notation "x <- m ;;; k" := (bbind m (fun x => k))
  (at level 61, m at next level, right associativity).
Notation "m ;;; k" := (bbind m (fun _ => k))
  (at level 61, right associativity).

(** The loop of [fetch_status_message] over the messages of the history:
    the first one written by [me]. *)
Fixpoint first_own (me : User) (msgs : list (Message * User))
  : option Message :=
  match msgs with
  | [] => None
  | (msg, author) :: older =>
      if same_user author me then Some msg else first_own me older
  end.

Definition fetch_status_message (channel : Channel) : B (option Message) :=
  env <- ask ;;;
  msgs <- startup (ChannelHistory channel 20)
                  (fun env => channel_history env channel 20) ;;;
  bret (first_own (bot_user env) msgs).

Definition INITIALIZING : string :=
  "# **Server Stats**" ++ nl ++ nl ++ "*Initializing...*".

Section Program.

Variable cfg : Config.

Definition start_bot : B unit :=
  btry
    (channel <- of_cycle (call (FetchChannel (CHANNEL_ID cfg))
                               (fun w => fetch_channel w (CHANNEL_ID cfg))) ;;;
     found <- fetch_status_message channel ;;;
     assign_status_message found ;;;
     match found with
     | None =>
         m <- of_cycle (call (ChannelSend channel INITIALIZING)
                             (fun w => channel_send w channel INITIALIZING)) ;;;
         assign_status_message (Some m)
     | Some _ => bret tt
     end ;;;
     env <- ask ;;;
     startup_unit (ChangeInterval (LOOP_INTERVAL env))
                  (fun env => change_interval env (LOOP_INTERVAL env)) ;;;
     startup_unit LoopStart loop_start)
    (fun e => of_cycle (print ("[CRITICAL] Startup failed: " ++ exn_str e))).

Definition on_ready : B unit :=
  env <- ask ;;;
  of_cycle (print ("✅ Logged in as " ++ user_str (bot_user env))) ;;;
  start_bot.

End Program.

(** Entries of the log. *)
Definition is_post (e : entry) : bool :=
  match e with Core (ChannelSend _ _) => true | _ => false end.

Definition is_loop_start (e : entry) : bool :=
  match e with Startup LoopStart => true | _ => false end.

Definition log_on (st : BootState) (es : list entry) : BootState :=
  {| held := held st; log := log st ++ es |}.

End Boot.

(** ** Observing the reply and the session *)

(** Every character of [s] satisfies [p]. *)
Fixpoint all_chars (p : ascii -> bool) (s : string) : bool :=
  match s with
  | EmptyString => true
  | String c r => p c && all_chars p r
  end.

Definition no_space (s : string) : bool :=
  all_chars (fun c => negb (isspace c)) s.

(** A token as [split] yields them: not empty and free of white space. *)
Definition is_token (s : string) : bool := truthy s && no_space s.

(** The number written by the decimal digits [d] after the digits that
    gave [acc]. *)
Fixpoint uint_value (acc : Z) (d : Decimal.uint) : Z :=
  match d with
  | Decimal.Nil => acc
  | Decimal.D0 r => uint_value (10 * acc + 0) r
  | Decimal.D1 r => uint_value (10 * acc + 1) r
  | Decimal.D2 r => uint_value (10 * acc + 2) r
  | Decimal.D3 r => uint_value (10 * acc + 3) r
  | Decimal.D4 r => uint_value (10 * acc + 4) r
  | Decimal.D5 r => uint_value (10 * acc + 5) r
  | Decimal.D6 r => uint_value (10 * acc + 6) r
  | Decimal.D7 r => uint_value (10 * acc + 7) r
  | Decimal.D8 r => uint_value (10 * acc + 8) r
  | Decimal.D9 r => uint_value (10 * acc + 9) r
  end.

(** The steps of an RCON session taken together: the tick count, or the
    exception of the first step that raises. *)
Definition session_outcome (cfg : Config) (w : World) (ip : string)
           (port : Z) (password : string) : exn + Z :=
  match rcon_connect w ip port with
  | Some e => inl e
  | None =>
      match rcon_login w password with
      | Some e => inl e
      | None =>
          match rcon_run w "time query daytime" with
          | inl e => inl e
          | inr reply => parse_ticks cfg reply
          end
      end
  end.

(** What the resolver prints when a step raises [e]. *)
Definition rcon_warning (e : exn) : event :=
  Print ("[WARN] RCON time query failed: " ++ exn_type e ++ ": "
         ++ exn_str e).

Definition is_rcon_close (e : event) : bool :=
  match e with RconClose => true | _ => false end.

Definition is_rcon_login (e : event) : bool :=
  match e with RconLogin _ => true | _ => false end.

Definition is_rcon_run (e : event) : bool :=
  match e with RconRun _ => true | _ => false end.

Definition succeeded (answer : option exn) : bool :=
  match answer with None => true | Some _ => false end.

(** ** More sample worlds *)

Module Scenario.

(** A world whose RCON session answers as given; the rest answers. *)
Definition rcon_world (connect login : option exn) (reply : exn + string)
  : World :=
  {| create_connection := fun _ _ => None;
     async_status := fun _ _ _ => inr Sample.status;
     async_query := fun _ _ _ => inr Sample.query;
     rcon_connect := fun _ _ => connect;
     rcon_login := fun _ => login;
     rcon_run := fun _ => reply;
     fetch_channel := fun id => inr (Chan id);
     message_edit := fun _ _ => None;
     channel_send := fun _ _ => inr (Msg 7);
     context_send := fun _ _ => None |}.

(** A world whose chat platform answers as given; the host is reachable
    or not, the game server and its RCON session answer. *)
Definition chat_world (channel : exn + Channel) (host : option exn)
           (edit : option exn) (post : exn + Message) : World :=
  {| create_connection := fun _ _ => host;
     async_status := fun _ _ _ => inr Sample.status;
     async_query := fun _ _ _ => inr Sample.query;
     rcon_connect := fun _ _ => None;
     rcon_login := fun _ => None;
     rcon_run := fun _ => inr "The time is 7000";
     fetch_channel := fun _ => channel;
     message_edit := fun _ _ => edit;
     channel_send := fun _ _ => post;
     context_send := fun _ _ => None |}.

Definition wrong_password : exn := Exn "WrongPassword" "wrong password".
Definition forbidden : exn := Exn "Forbidden" "403 Forbidden".

Definition me : Boot.User := {| Boot.user_id := 99; Boot.user_str := "Eggroll#0001" |}.
Definition alice : Boot.User := {| Boot.user_id := 5; Boot.user_str := "alice" |}.

(** The start-up answers: the history of the channel is given, the loop
    object accepts both calls. *)
Definition env (history : exn + list (Message * Boot.User)) : Boot.Env :=
  {| Boot.LOOP_INTERVAL := 60;
     Boot.bot_user := me;
     Boot.channel_history := fun _ _ => history;
     Boot.change_interval := fun _ => None;
     Boot.loop_start := None |}.

Definition booting : Boot.BootState := {| Boot.held := None; Boot.log := [] |}.

End Scenario.

(** * Properties *)

(** ** The monad: computations that leave the held message alone *)

Lemma emit_on_nil (st : State) : emit_on st [] = st.
Proof. destruct st; unfold emit_on; simpl; now rewrite app_nil_r. Qed.

Lemma emit_on_app (st : State) (a b : list event) :
  emit_on (emit_on st a) b = emit_on st (a ++ b)%list.
Proof. unfold emit_on; simpl; now rewrite app_assoc. Qed.

Lemma emit_on_fresh (evs : list event) : output (emit_on fresh evs) = evs.
Proof. reflexivity. Qed.

Lemma handle_free_intro {A} (m : M A)
      (evs : World -> list event) (res : World -> exn + A) :
  (forall w st, m w st = (emit_on st (evs w), res w)) -> handle_free m.
Proof.
  intros H w st. unfold events_of, result_of.
  rewrite (H w fresh), (H w st). reflexivity.
Qed.

Lemma handle_free_ret {A} (a : A) : handle_free (ret a).
Proof.
  apply (handle_free_intro _ (fun _ => []) (fun _ => inr a)).
  intros w st. unfold ret. now rewrite emit_on_nil.
Qed.

Lemma handle_free_raise {A} (e : exn) : handle_free (@raise A e).
Proof.
  apply (handle_free_intro _ (fun _ => []) (fun _ => inl e)).
  intros w st. unfold raise. now rewrite emit_on_nil.
Qed.

Lemma handle_free_lift {A} (r : exn + A) : handle_free (lift r).
Proof.
  apply (handle_free_intro _ (fun _ => []) (fun _ => r)).
  intros w st. unfold lift. now rewrite emit_on_nil.
Qed.

Lemma handle_free_emit (e : event) : handle_free (emit e).
Proof. now apply (handle_free_intro _ (fun _ => [e]) (fun _ => inr tt)). Qed.

Lemma handle_free_print (text : string) : handle_free (print text).
Proof. apply handle_free_emit. Qed.

Lemma handle_free_call {A} (e : event) (answer : World -> exn + A) :
  handle_free (call e answer).
Proof. now apply (handle_free_intro _ (fun _ => [e]) answer). Qed.

Lemma handle_free_call_unit (e : event) (answer : World -> option exn) :
  handle_free (call_unit e answer).
Proof. apply handle_free_call. Qed.

Lemma handle_free_bind {A B} (m : M A) (f : A -> M B) :
  handle_free m -> (forall a, handle_free (f a)) -> handle_free (bind m f).
Proof.
  intros Hm Hf.
  apply (handle_free_intro _
           (fun w => (events_of m w ++
                     match result_of m w with
                     | inr a => events_of (f a) w
                     | inl _ => []
                     end)%list)
           (fun w => match result_of m w with
                     | inr a => result_of (f a) w
                     | inl e => inl e
                     end)).
  intros w st. unfold bind. rewrite (Hm w st).
  destruct (result_of m w) as [e | a].
  - now rewrite app_nil_r.
  - now rewrite (Hf a w), emit_on_app.
Qed.

Lemma handle_free_try_except {A} (body : M A) (handler : exn -> M A) :
  handle_free body -> (forall e, handle_free (handler e)) ->
  handle_free (try_except body handler).
Proof.
  intros Hb Hh.
  apply (handle_free_intro _
           (fun w => (events_of body w ++
                     match result_of body w with
                     | inl e => events_of (handler e) w
                     | inr _ => []
                     end)%list)
           (fun w => match result_of body w with
                     | inl e => result_of (handler e) w
                     | inr a => inr a
                     end)).
  intros w st. unfold try_except. rewrite (Hb w st).
  destruct (result_of body w) as [e | a].
  - now rewrite (Hh e w), emit_on_app.
  - now rewrite app_nil_r.
Qed.

Lemma handle_free_finally {A} (body : M A) (cleanup : M unit) :
  handle_free body -> handle_free cleanup -> handle_free (finally body cleanup).
Proof.
  intros Hb Hc.
  apply (handle_free_intro _
           (fun w => (events_of body w ++ events_of cleanup w)%list)
           (fun w => match result_of cleanup w with
                     | inr _ => result_of body w
                     | inl e => inl e
                     end)).
  intros w st. unfold finally. rewrite (Hb w st), (Hc w), emit_on_app.
  now destruct (result_of cleanup w).
Qed.

Lemma run_block_handle_free {L} (stmts : list (L -> M L)) :
  (forall stmt, In stmt stmts -> forall vars, handle_free (stmt vars)) ->
  forall vars w st,
    run_block stmts vars w st =
    (emit_on st (output (fst (run_block stmts vars w fresh))),
     snd (run_block stmts vars w fresh)).
Proof.
  induction stmts as [| stmt rest IH]; intros Hall vars w st.
  - simpl. now rewrite emit_on_nil.
  - simpl.
    rewrite (Hall stmt (or_introl eq_refl) vars w st).
    rewrite (Hall stmt (or_introl eq_refl) vars w fresh).
    destruct (result_of (stmt vars) w) as [e | vars'].
    + reflexivity.
    + assert (Hrest : forall s, In s rest -> forall v, handle_free (s v))
        by (intros s Hs; apply Hall; now right).
      rewrite (IH Hrest vars' w (emit_on st _)).
      rewrite (IH Hrest vars' w (emit_on fresh _)).
      simpl. now rewrite emit_on_app.
Qed.

Lemma handle_free_try_block {L} (stmts : list (L -> M L))
      (handler : exn -> L -> M L) (vars : L) :
  (forall stmt, In stmt stmts -> forall v, handle_free (stmt v)) ->
  (forall e v, handle_free (handler e v)) ->
  handle_free (try_block stmts handler vars).
Proof.
  intros Hs Hh.
  apply (handle_free_intro _
           (fun w => (output (fst (run_block stmts vars w fresh)) ++
                     match snd (run_block stmts vars w fresh) with
                     | inl (e, v) => events_of (handler e v) w
                     | inr _ => []
                     end)%list)
           (fun w => match snd (run_block stmts vars w fresh) with
                     | inl (e, v) => result_of (handler e v) w
                     | inr v => inr v
                     end)).
  intros w st. unfold try_block.
  rewrite (run_block_handle_free stmts Hs vars w st).
  destruct (snd (run_block stmts vars w fresh)) as [[e v] | v].
  - now rewrite (Hh e v w), emit_on_app.
  - now rewrite app_nil_r.
Qed.

Create HintDb handle_free.

#[export] Hint Resolve handle_free_ret handle_free_raise handle_free_lift
  handle_free_emit handle_free_print handle_free_call handle_free_call_unit
  handle_free_bind handle_free_try_except handle_free_finally
  handle_free_try_block : handle_free.

(** ** The reachability prober *)

Lemma check_tcp_port_handle_free ip port label :
  handle_free (check_tcp_port ip port label).
Proof. unfold check_tcp_port; auto 10 with handle_free. Qed.

Lemma check_tcp_port_up ip port label w st :
  create_connection w ip port = None ->
  check_tcp_port ip port label w st =
  (emit_on st [ SocketConnect ip port;
                Print ("[DEBUG] " ++ label ++ " " ++ str_of_int port
                       ++ " reachable on " ++ ip) ],
   inr true).
Proof.
  intros H. unfold check_tcp_port, try_except, bind, call_unit, call, print,
              emit, ret.
  rewrite H. now rewrite emit_on_app.
Qed.

Lemma check_tcp_port_down ip port label w st e :
  create_connection w ip port = Some e ->
  check_tcp_port ip port label w st =
  (emit_on st [ SocketConnect ip port;
                Print ("[WARN] " ++ label ++ " check failed: " ++ exn_str e) ],
   inr false).
Proof.
  intros H. unfold check_tcp_port, try_except, bind, call_unit, call, print,
              emit, ret.
  rewrite H. now rewrite emit_on_app.
Qed.

(** ** The time-of-day resolver *)

Section TimeResolver.

Variable cfg : Config.

Lemma get_time_of_day_handle_free ip port password :
  handle_free (get_time_of_day_via_rcon cfg ip port password).
Proof.
  unfold get_time_of_day_via_rcon, with_client.
  destruct (negb (truthy password)); auto 20 with handle_free.
Qed.

(** With a credential and a session that answers, the resolver ends on
    the parse of the reply: a label, or the sentinel after a warning. *)
Lemma get_time_of_day_answered ip port password reply w st :
  truthy password = true ->
  rcon_connect w ip port = None ->
  rcon_login w password = None ->
  rcon_run w "time query daytime" = inr reply ->
  get_time_of_day_via_rcon cfg ip port password w st =
  match parse_ticks cfg reply with
  | inr ticks =>
      (emit_on st (session_events ip port password),
       inr (label_of_ticks ticks))
  | inl e =>
      (emit_on st (session_events ip port password ++
                   [ Print ("[WARN] RCON time query failed: " ++ exn_type e
                            ++ ": " ++ exn_str e) ])%list,
       inr RCON_UNAVAILABLE)
  end.
Proof.
  intros Hpw Hconn Hlogin Hrun.
  unfold get_time_of_day_via_rcon. rewrite Hpw. cbn [negb].
  unfold try_except, with_client, finally, bind, call_unit, call, lift, print,
         emit, ret.
  rewrite Hconn, Hlogin, Hrun.
  destruct (parse_ticks cfg reply) as [e | ticks];
    now rewrite !emit_on_app.
Qed.

(** The resolver always returns, and returns one of the six labels. *)
Lemma label_of_ticks_in_labels ticks : In (label_of_ticks ticks) TIME_LABELS.
Proof.
  unfold label_of_ticks, TIME_LABELS.
  destruct (ticks <? 6000); [simpl; tauto |].
  destruct (ticks <? 12000); [simpl; tauto |].
  destruct (ticks <? 18000); simpl; tauto.
Qed.

Lemma get_time_of_day_returns ip port password w st :
  exists st' label,
    get_time_of_day_via_rcon cfg ip port password w st = (st', inr label)
    /\ In label TIME_LABELS.
Proof.
  unfold get_time_of_day_via_rcon.
  destruct (truthy password); cbn [negb].
  - unfold try_except, with_client, finally, bind, call_unit, call, lift,
           print, emit, ret.
    destruct (rcon_connect w ip port);
      [ eexists; eexists; split; [reflexivity | simpl; tauto] |].
    destruct (rcon_login w password);
      [ eexists; eexists; split; [reflexivity | simpl; tauto] |].
    destruct (rcon_run w "time query daytime");
      [ eexists; eexists; split; [reflexivity | simpl; tauto] |].
    destruct (parse_ticks cfg s);
      [ eexists; eexists; split; [reflexivity | simpl; tauto] |].
    eexists; eexists; split; [reflexivity | apply label_of_ticks_in_labels].
  - eexists; eexists; split; [reflexivity | simpl; tauto].
Qed.

Lemma get_time_of_day_result ip port password w :
  exists label,
    result_of (get_time_of_day_via_rcon cfg ip port password) w = inr label
    /\ In label TIME_LABELS.
Proof.
  unfold result_of.
  destruct (get_time_of_day_returns ip port password w fresh)
    as (st' & label & Hrun & Hin).
  exists label. now rewrite Hrun.
Qed.

End TimeResolver.

(** ** Claims on the time-of-day resolver *)

Section TimeClaims.

Variable cfg : Config.

(** C6.  With an empty credential, [get_time_of_day_via_rcon] returns the
    literal "RCON not configured" label whatever the world answers, and all
    it emits is the warning it prints: no session is opened, so the result
    does not depend on the network. *)
Theorem empty_credential_not_configured :
  forall (ip : string) (port : Z) (w : World) (st : State),
    get_time_of_day_via_rcon cfg ip port "" w st =
    (emit_on st [Print "[WARN] RCON password not set, skipping time query."],
     inr RCON_NOT_CONFIGURED)
    /\ RCON_NOT_CONFIGURED = "🚫 RCON not configured"
    /\ count is_rcon (events_of (get_time_of_day_via_rcon cfg ip port "") w) = 0%nat.
Proof.
  intros ip port w st. repeat split.
Qed.

(** C5.  When the session answers and the last token of the reply parses
    as the tick count [t], the label is chosen by quarter day, lower bound
    included: [0,6000) Morning, [6000,12000) Midday, [12000,18000) Evening,
    [18000,24000) Night; so 0, 6000, 12000, 18000 and 23999 give Morning,
    Midday, Evening, Night and Night. *)
Theorem ticks_bucketed_lower_inclusive :
  forall (ip : string) (port : Z) (password reply : string) (t : Z)
         (w : World) (st : State),
    truthy password = true ->
    rcon_connect w ip port = None ->
    rcon_login w password = None ->
    rcon_run w "time query daytime" = inr reply ->
    parse_ticks cfg reply = inr t ->
    let label := snd (get_time_of_day_via_rcon cfg ip port password w st) in
    (0 <= t < 6000 -> label = inr MORNING)
    /\ (6000 <= t < 12000 -> label = inr MIDDAY)
    /\ (12000 <= t < 18000 -> label = inr EVENING)
    /\ (18000 <= t < 24000 -> label = inr NIGHT)
    /\ (t = 0 -> label = inr MORNING)
    /\ (t = 6000 -> label = inr MIDDAY)
    /\ (t = 12000 -> label = inr EVENING)
    /\ (t = 18000 -> label = inr NIGHT)
    /\ (t = 23999 -> label = inr NIGHT).
Proof.
  intros ip port password reply t w st Hpw Hconn Hlogin Hrun Hparse label.
  subst label.
  rewrite (get_time_of_day_answered cfg ip port password reply w st
             Hpw Hconn Hlogin Hrun), Hparse.
  cbn [snd]. unfold label_of_ticks.
  repeat split; intros Ht;
    repeat match goal with
           | |- context [?a <? ?b] => destruct (Z.ltb_spec a b); try lia
           end; reflexivity.
Qed.

(** C1, as the code has it.  When the session answers and the last token
    of the reply parses as a tick count outside [0, 24000), the resolver
    returns a time-of-day label and not the sentinel: Night from 24000 up,
    Morning below 0. *)
Theorem out_of_range_ticks_labelled :
  forall (ip : string) (port : Z) (password reply : string) (t : Z)
         (w : World) (st : State),
    truthy password = true ->
    rcon_connect w ip port = None ->
    rcon_login w password = None ->
    rcon_run w "time query daytime" = inr reply ->
    parse_ticks cfg reply = inr t ->
    let label := snd (get_time_of_day_via_rcon cfg ip port password w st) in
    (24000 <= t -> label = inr NIGHT)
    /\ (t < 0 -> label = inr MORNING).
Proof.
  intros ip port password reply t w st Hpw Hconn Hlogin Hrun Hparse label.
  subst label.
  rewrite (get_time_of_day_answered cfg ip port password reply w st
             Hpw Hconn Hlogin Hrun), Hparse.
  cbn [snd]. unfold label_of_ticks.
  split; intros Ht;
    repeat match goal with
           | |- context [?a <? ?b] => destruct (Z.ltb_spec a b); try lia
           end; reflexivity.
Qed.

End TimeClaims.

(** ** The snapshot assembler *)

Section Assembler.

Variable cfg : Config.

Lemma query_server_handle_free vars : handle_free (query_server cfg vars).
Proof. unfold query_server; auto 10 with handle_free. Qed.

Lemma query_time_handle_free vars : handle_free (query_time cfg vars).
Proof.
  unfold query_time. apply handle_free_bind.
  - apply get_time_of_day_handle_free.
  - auto with handle_free.
Qed.

Lemma fetch_server_status_handle_free : handle_free (fetch_server_status cfg).
Proof.
  unfold fetch_server_status. apply handle_free_bind.
  - apply check_tcp_port_handle_free.
  - intros up. destruct (negb up).
    + auto with handle_free.
    + apply handle_free_try_block.
      * intros stmt [<- | [<- | []]] v.
        -- apply query_server_handle_free.
        -- apply query_time_handle_free.
      * auto with handle_free.
Qed.

(** The host does not answer. *)
Lemma fetch_host_down w st e :
  create_connection w (HOST_IP cfg) (HOST_PORT cfg) = Some e ->
  fetch_server_status cfg w st =
  (emit_on st [ SocketConnect (HOST_IP cfg) (HOST_PORT cfg);
                Print ("[WARN] Host check failed: " ++ exn_str e) ],
   inr (initial_vars false)).
Proof.
  intros H. unfold fetch_server_status, bind.
  now rewrite (check_tcp_port_down _ _ _ _ _ _ H).
Qed.

(** The host answers and one of the two queries raises. *)
Lemma fetch_query_failed w st e :
  create_connection w (HOST_IP cfg) (HOST_PORT cfg) = None ->
  query_outcome cfg w = inl e ->
  fetch_server_status cfg w st =
  (emit_on st (probe_ok_events cfg ++ query_events cfg w ++
               [ Print ("[WARN] Server query failed: " ++ exn_type e ++ ": "
                        ++ exn_str e) ])%list,
   inr (initial_vars true)).
Proof.
  intros Hup Hq. unfold fetch_server_status, bind.
  rewrite (check_tcp_port_up _ _ _ _ _ Hup). cbn [negb].
  unfold try_block, run_block, query_server, bind, call, print, emit, ret.
  unfold query_outcome in Hq. unfold query_events, probe_ok_events.
  destruct (async_status w (HOST_IP cfg) (SERVER_PORT cfg) (QUERY_PORT cfg))
    as [e1 | status].
  - injection Hq as ->. now rewrite !emit_on_app.
  - destruct (async_query w (HOST_IP cfg) (SERVER_PORT cfg) (QUERY_PORT cfg))
      as [e2 | query]; [| discriminate].
    injection Hq as ->. now rewrite !emit_on_app.
Qed.

(** The host answers and both queries answer: the resolver runs, and its
    label is stored next to the fields of the queries. *)
Lemma fetch_query_answered w st status query :
  create_connection w (HOST_IP cfg) (HOST_PORT cfg) = None ->
  query_outcome cfg w = inr (status, query) ->
  exists label,
    result_of (resolve_time cfg) w = inr label
    /\ In label TIME_LABELS
    /\ fetch_server_status cfg w st =
       (emit_on st (probe_ok_events cfg ++ query_events cfg w ++
                    events_of (resolve_time cfg) w)%list,
        inr (online_snapshot status query label)).
Proof.
  intros Hup Hq. unfold resolve_time.
  destruct (get_time_of_day_result cfg (HOST_IP cfg) (RCON_PORT cfg)
                                   (RCON_PASS cfg) w) as (label & Hres & Hin).
  exists label. split; [exact Hres | split; [exact Hin |]].
  unfold fetch_server_status, bind.
  rewrite (check_tcp_port_up _ _ _ _ _ Hup). cbn [negb].
  unfold try_block, run_block, query_server, query_time, bind, call, ret.
  unfold query_outcome in Hq. unfold query_events, probe_ok_events.
  destruct (async_status w (HOST_IP cfg) (SERVER_PORT cfg) (QUERY_PORT cfg))
    as [e1 | status']; [discriminate |].
  destruct (async_query w (HOST_IP cfg) (SERVER_PORT cfg) (QUERY_PORT cfg))
    as [e2 | query']; [discriminate |].
  injection Hq as -> ->.
  rewrite (get_time_of_day_handle_free cfg _ _ _ w), Hres.
  now rewrite !emit_on_app.
Qed.

(** The assembler always returns a snapshot. *)
Lemma fetch_server_status_returns w :
  exists data, result_of (fetch_server_status cfg) w = inr data.
Proof.
  unfold result_of.
  destruct (create_connection w (HOST_IP cfg) (HOST_PORT cfg)) as [e |] eqn:Hc.
  - rewrite (fetch_host_down _ _ _ Hc). now eexists.
  - destruct (query_outcome cfg w) as [e | [status query]] eqn:Hq.
    + rewrite (fetch_query_failed _ _ _ Hc Hq). now eexists.
    + destruct (fetch_query_answered w fresh status query Hc Hq)
        as (label & _ & _ & Hrun).
      rewrite Hrun. now eexists.
Qed.

End Assembler.

(** ** The renderer *)

Section Renderer.

Variable cfg : Config.

Lemma format_status_lines_offline
      mc_status players player_list motd time_label game_mode map_name up :
  startswith mc_status ONLINE_GLYPH = false ->
  format_status_lines cfg mc_status players player_list motd time_label
                      game_mode map_name up =
  [ "# **Server Stats**";
    "";
    "> **Minecraft Server**:";
    "> " ++ mc_status;
    "> Version: " ++ MC_VERSION cfg;
    "";
    "> **Host Server**:";
    "> " ++ (if up then "🟢 Online" else "🔴 Offline");
    "> Host IP: " ++ HOST_IP cfg;
    "> Host Port: " ++ str_of_int (HOST_PORT cfg) ].
Proof. intros H. unfold format_status_lines. now rewrite H. Qed.

Lemma format_status_lines_online
      mc_status players player_list motd time_label game_mode map_name up :
  startswith mc_status ONLINE_GLYPH = true ->
  format_status_lines cfg mc_status players player_list motd time_label
                      game_mode map_name up =
  [ "# **Server Stats**";
    "";
    "> **Minecraft Server**:";
    "> " ++ mc_status;
    "> Players: " ++ players;
    "> Online Players: "
      ++ match player_list with
         | [] => "(none)"
         | _ :: _ => join ", " player_list
         end;
    "> MOTD: " ++ or_default motd "Unknown";
    "> Time of Day: " ++ or_default time_label "Unknown";
    "> Map: " ++ or_default map_name "Unknown";
    "> Version: " ++ MC_VERSION cfg;
    "> Game Mode: " ++ or_default game_mode "Unknown";
    "";
    "> **Host Server**:";
    "> " ++ (if up then "🟢 Online" else "🔴 Offline");
    "> Host IP: " ++ HOST_IP cfg;
    "> Host Port: " ++ str_of_int (HOST_PORT cfg) ].
Proof. intros H. unfold format_status_lines. now rewrite H. Qed.

(** The report opens with its header line, so it is never the banner. *)
Lemma format_status_header
      mc_status players player_list motd time_label game_mode map_name up :
  startswith (format_status cfg mc_status players player_list motd time_label
                            game_mode map_name up)
             "# **Server Stats**" = true.
Proof.
  unfold format_status, format_status_lines.
  destruct (startswith mc_status ONLINE_GLYPH); reflexivity.
Qed.

Lemma format_status_not_fallback
      mc_status players player_list motd time_label game_mode map_name up :
  format_status cfg mc_status players player_list motd time_label
                game_mode map_name up <> FALLBACK.
Proof.
  intros Heq.
  pose proof (format_status_header mc_status players player_list motd
                time_label game_mode map_name up) as H.
  rewrite Heq in H. discriminate H.
Qed.

(** C7.  When the game-server status does not carry the online glyph, the
    report is the header, the status line, the version line and the host
    block, whatever the other fields hold; with the offline status of the
    assembler no line of it carries the label of players, player names,
    MOTD, time, map or game mode.  And every report ends with the host
    block: the marker for [host_is_up], the configured address and port. *)
Theorem offline_report_shows_version_only :
  forall (mc_status players : string) (player_list : list string)
         (motd time_label game_mode map_name : option string) (up : bool),
    (startswith mc_status ONLINE_GLYPH = false ->
     format_status cfg mc_status players player_list motd time_label
                   game_mode map_name up =
     join nl [ "# **Server Stats**";
               "";
               "> **Minecraft Server**:";
               "> " ++ mc_status;
               "> Version: " ++ MC_VERSION cfg;
               "";
               "> **Host Server**:";
               "> " ++ (if up then "🟢 Online" else "🔴 Offline");
               "> Host IP: " ++ HOST_IP cfg;
               "> Host Port: " ++ str_of_int (HOST_PORT cfg) ])
    /\ forallb (fun line => negb (carries_field_label line))
               (format_status_lines cfg MC_OFFLINE players player_list motd
                                    time_label game_mode map_name up) = true
    /\ exists game_block,
        format_status cfg mc_status players player_list motd time_label
                      game_mode map_name up =
        join nl (app game_block
                 [ "";
                   "> **Host Server**:";
                   "> " ++ (if up then "🟢 Online" else "🔴 Offline");
                   "> Host IP: " ++ HOST_IP cfg;
                   "> Host Port: " ++ str_of_int (HOST_PORT cfg) ]).
Proof.
  intros mc_status players player_list motd time_label game_mode map_name up.
  split; [| split].
  - intros H. unfold format_status.
    now rewrite (format_status_lines_offline _ _ _ _ _ _ _ _ H).
  - rewrite format_status_lines_offline by reflexivity.
    destruct up; reflexivity.
  - unfold format_status, format_status_lines.
    destruct (startswith mc_status ONLINE_GLYPH); eexists; reflexivity.
Qed.

(** C8.  [format_status] is a function of its arguments alone and returns
    a text for every snapshot: the text below, in which every optional
    field has its substitute.  A MOTD, time label, map or game mode that is
    [None] or empty is shown as "Unknown" and one that is present is shown
    as it is; an empty player list is shown as "(none)".  Equal arguments
    give equal texts. *)
Theorem format_status_deterministic_total :
  forall (mc_status players : string) (player_list : list string)
         (motd time_label game_mode map_name : option string) (up : bool),
    let shown := fun field : option string =>
                   match field with
                   | Some (String c rest) => String c rest
                   | Some EmptyString => "Unknown"
                   | None => "Unknown"
                   end in
    format_status cfg mc_status players player_list motd time_label
                  game_mode map_name up =
    join nl
      (if startswith mc_status ONLINE_GLYPH
       then [ "# **Server Stats**";
              "";
              "> **Minecraft Server**:";
              "> " ++ mc_status;
              "> Players: " ++ players;
              "> Online Players: "
                ++ match player_list with
                   | [] => "(none)"
                   | _ :: _ => join ", " player_list
                   end;
              "> MOTD: " ++ shown motd;
              "> Time of Day: " ++ shown time_label;
              "> Map: " ++ shown map_name;
              "> Version: " ++ MC_VERSION cfg;
              "> Game Mode: " ++ shown game_mode;
              "";
              "> **Host Server**:";
              "> " ++ (if up then "🟢 Online" else "🔴 Offline");
              "> Host IP: " ++ HOST_IP cfg;
              "> Host Port: " ++ str_of_int (HOST_PORT cfg) ]
       else [ "# **Server Stats**";
              "";
              "> **Minecraft Server**:";
              "> " ++ mc_status;
              "> Version: " ++ MC_VERSION cfg;
              "";
              "> **Host Server**:";
              "> " ++ (if up then "🟢 Online" else "🔴 Offline");
              "> Host IP: " ++ HOST_IP cfg;
              "> Host Port: " ++ str_of_int (HOST_PORT cfg) ])
    /\ (forall mc_status' players' player_list' motd' time_label' game_mode'
               map_name' up',
           (mc_status', players', player_list', motd', time_label',
            game_mode', map_name', up')
           = (mc_status, players, player_list, motd, time_label, game_mode,
              map_name, up) ->
           format_status cfg mc_status' players' player_list' motd'
                         time_label' game_mode' map_name' up'
           = format_status cfg mc_status players player_list motd time_label
                           game_mode map_name up).
Proof.
  intros mc_status players player_list motd time_label game_mode map_name up
         shown.
  assert (Hshown : forall field, or_default field "Unknown" = shown field)
    by (intros [[| c rest] |]; reflexivity).
  split.
  - unfold format_status.
    destruct (startswith mc_status ONLINE_GLYPH) eqn:Hglyph.
    + rewrite (format_status_lines_online _ _ _ _ _ _ _ _ Hglyph).
      now rewrite !Hshown.
    + now rewrite (format_status_lines_offline _ _ _ _ _ _ _ _ Hglyph).
  - intros mc' pl' l' m' t' g' mp' up' Heq.
    injection Heq as -> -> -> -> -> -> -> ->. reflexivity.
Qed.

End Renderer.

(** ** The publisher *)

Section Publisher.

Variable cfg : Config.

Lemma count_app (p : event -> bool) (a b : list event) :
  count p (a ++ b)%list = (count p a + count p b)%nat.
Proof. unfold count. now rewrite filter_app, length_app. Qed.

Lemma count_none (p q : event -> bool) (evs : list event) :
  (forall e, q e = false -> p e = false) ->
  forallb (fun e => negb (q e)) evs = true ->
  count p evs = 0%nat.
Proof.
  intros Hpq. unfold count. induction evs as [| e rest IH]; simpl; intros H.
  - reflexivity.
  - apply andb_prop in H as [He Hrest].
    rewrite (Hpq e) by now destruct (q e).
    now apply IH.
Qed.

(** The resolver and the assembler make no call to the chat platform. *)
Lemma resolver_no_chat ip port password w :
  forallb (fun e => negb (is_chat e))
          (events_of (get_time_of_day_via_rcon cfg ip port password) w) = true.
Proof.
  unfold events_of, get_time_of_day_via_rcon.
  destruct (truthy password); cbn [negb]; [| reflexivity].
  unfold try_except, with_client, finally, bind, call_unit, call, lift,
         print, emit, ret.
  destruct (rcon_connect w ip port); [reflexivity |].
  destruct (rcon_login w password); [reflexivity |].
  destruct (rcon_run w "time query daytime"); [reflexivity |].
  destruct (parse_ticks cfg s); reflexivity.
Qed.

Lemma fetch_no_chat w :
  forallb (fun e => negb (is_chat e))
          (events_of (fetch_server_status cfg) w) = true.
Proof.
  unfold events_of.
  destruct (create_connection w (HOST_IP cfg) (HOST_PORT cfg)) as [e |] eqn:Hc.
  - now rewrite (fetch_host_down _ _ _ _ Hc).
  - destruct (query_outcome cfg w) as [e | [status query]] eqn:Hq.
    + rewrite (fetch_query_failed _ _ _ _ Hc Hq). cbn [fst].
      rewrite emit_on_fresh, !forallb_app.
      unfold query_events.
      now destruct (async_status w (HOST_IP cfg) (SERVER_PORT cfg)
                                 (QUERY_PORT cfg)).
    + destruct (fetch_query_answered cfg w fresh status query Hc Hq)
        as (label & _ & _ & Hrun).
      rewrite Hrun. cbn [fst].
      rewrite emit_on_fresh, !forallb_app.
      unfold resolve_time. rewrite resolver_no_chat.
      unfold query_events.
      now destruct (async_status w (HOST_IP cfg) (SERVER_PORT cfg)
                                 (QUERY_PORT cfg)).
Qed.

(** One scheduled tick while a message is held: the channel is fetched,
    the snapshot assembled, the held message edited once; the tick returns
    and the held message stays the same, whether the edit went through or
    not. *)
Lemma update_status_holding w st m channel data :
  status_message st = Some m ->
  fetch_channel w (CHANNEL_ID cfg) = inr channel ->
  result_of (fetch_server_status cfg) w = inr data ->
  update_status cfg w st =
  (emit_on st (FetchChannel (CHANNEL_ID cfg)
               :: events_of (fetch_server_status cfg) w
               ++ edit_events cfg w data m)%list,
   inr tt).
Proof.
  intros Hheld Hchan Hdata.
  unfold update_status, bind, call. rewrite Hchan.
  rewrite (fetch_server_status_handle_free cfg w), Hdata.
  unfold edit_events, published_text, publish_error.
  destruct (host_is_up data); cbn [negb].
  - unfold try_except, bind, print, emit, get_status_message, call_unit, call.
    cbn [emit_on status_message]. rewrite Hheld.
    destruct (message_edit w m (render cfg data)); cbn [app];
      rewrite !emit_on_app; reflexivity.
  - unfold try_except, bind, print, emit, get_status_message, call_unit, call.
    cbn [emit_on status_message]. rewrite Hheld.
    destruct (message_edit w m FALLBACK); cbn [app];
      rewrite !emit_on_app; reflexivity.
Qed.

End Publisher.

(** ** Claims on the assembler, the scheduled path and the command *)

Section PipelineClaims.

Variable cfg : Config.

(** C4.  When the host probe fails, [fetch_server_status] returns the
    snapshot with [host_is_up] false and every other entry at its default
    (offline status, no MOTD, time label, game mode or map, players "None",
    no player names), and all it emits is the probe and its warning: no
    status query, no metadata query, no RCON session. *)
Theorem host_down_snapshot_skips_queries :
  forall (w : World) (st : State) (e : exn),
    create_connection w (HOST_IP cfg) (HOST_PORT cfg) = Some e ->
    exists evs,
      fetch_server_status cfg w st =
      (emit_on st evs,
       inr {| host_is_up := false;
              mc_status := "🔴 Offline or Unreachable";
              motd := None;
              time_label := None;
              game_mode := None;
              map_name := None;
              players := "None";
              player_list := [] |})
      /\ evs = [ SocketConnect (HOST_IP cfg) (HOST_PORT cfg);
                 Print ("[WARN] Host check failed: " ++ exn_str e) ]
      /\ count is_server_query evs = 0%nat
      /\ count is_rcon evs = 0%nat.
Proof.
  intros w st e Hdown. eexists. split; [| split; [reflexivity |]].
  - now rewrite (fetch_host_down cfg w st e Hdown).
  - split; reflexivity.
Qed.

(** C2, as the code has it.  When the host probe succeeds and a query
    raises, the snapshot has [host_is_up] true and every game-server entry
    at its default, and its report is the full template with the offline
    block (offline status and version only) above a host block marked
    online; the report is not the host-down banner, and a scheduled tick
    holding a message edits it with this report. *)
Theorem query_failure_renders_offline_block :
  forall (w : World) (st : State) (e : exn),
    create_connection w (HOST_IP cfg) (HOST_PORT cfg) = None ->
    query_outcome cfg w = inl e ->
    let data := {| host_is_up := true;
                   mc_status := "🔴 Offline or Unreachable";
                   motd := None;
                   time_label := None;
                   game_mode := None;
                   map_name := None;
                   players := "None";
                   player_list := [] |} in
    snd (fetch_server_status cfg w st) = inr data
    /\ render cfg data =
       join nl [ "# **Server Stats**";
                 "";
                 "> **Minecraft Server**:";
                 "> 🔴 Offline or Unreachable";
                 "> Version: " ++ MC_VERSION cfg;
                 "";
                 "> **Host Server**:";
                 "> 🟢 Online";
                 "> Host IP: " ++ HOST_IP cfg;
                 "> Host Port: " ++ str_of_int (HOST_PORT cfg) ]
    /\ render cfg data <> FALLBACK
    /\ (forall m channel,
           status_message st = Some m ->
           fetch_channel w (CHANNEL_ID cfg) = inr channel ->
           In (MessageEdit m (render cfg data))
              (output (fst (update_status cfg w st)))).
Proof.
  intros w st e Hup Hq data.
  assert (Hfetch : forall st0, snd (fetch_server_status cfg w st0) = inr data)
    by (intros st0; now rewrite (fetch_query_failed cfg w st0 e Hup Hq)).
  split; [apply Hfetch | split; [reflexivity | split]].
  - apply format_status_not_fallback.
  - intros m channel Hheld Hchan.
    rewrite (update_status_holding cfg w st m channel data Hheld Hchan
               (Hfetch fresh)).
    cbn [fst emit_on output].
    apply in_or_app. right. right.
    apply in_or_app. right.
    unfold edit_events, published_text. cbn [host_is_up data app].
    right. now left.
Qed.

(** C3, as the code has it.  When the host probe succeeds, the resolver
    runs exactly when both queries answer.  If a query raises, the cycle
    emits the probe, the queries up to the failing one and the warning, and
    the time label stays absent: no RCON session is opened.  If both
    answer, the resolver runs after them and its label, whichever of the
    six it is, is stored next to the fields of the queries: a resolver
    failure leaves them as they are. *)
Theorem resolver_runs_after_successful_query :
  forall (w : World) (st : State),
    create_connection w (HOST_IP cfg) (HOST_PORT cfg) = None ->
    (forall e,
        query_outcome cfg w = inl e ->
        exists evs data,
          fetch_server_status cfg w st = (emit_on st evs, inr data)
          /\ evs = (probe_ok_events cfg ++ query_events cfg w ++
                    [ Print ("[WARN] Server query failed: " ++ exn_type e
                             ++ ": " ++ exn_str e) ])%list
          /\ count is_rcon evs = 0%nat
          /\ time_label data = None)
    /\ (forall status query,
           query_outcome cfg w = inr (status, query) ->
           exists label,
             result_of (resolve_time cfg) w = inr label
             /\ In label TIME_LABELS
             /\ fetch_server_status cfg w st =
                (emit_on st (probe_ok_events cfg ++ query_events cfg w ++
                             events_of (resolve_time cfg) w)%list,
                 inr (online_snapshot status query label))).
Proof.
  intros w st Hup. split.
  - intros e Hq. eexists. eexists.
    split; [apply (fetch_query_failed cfg w st e Hup Hq) |].
    split; [reflexivity |]. split; [| reflexivity].
    rewrite !count_app. unfold query_events.
    now destruct (async_status w (HOST_IP cfg) (SERVER_PORT cfg)
                               (QUERY_PORT cfg)).
  - intros status query Hq.
    apply (fetch_query_answered cfg w st status query Hup Hq).
Qed.

(** C9.  On a scheduled tick that holds a message and whose edit is
    rejected, [update_status] returns without raising, prints the error,
    has attempted one edit and no post, and leaves [status_message] on the
    same message: the loop goes on to the later ticks, and the next tick
    whose channel is found edits that same message. *)
Theorem failed_edit_keeps_handle :
  forall (w : World) (st : State) (m : Message) (channel : Channel)
         (data : StatusData) (e : exn),
    status_message st = Some m ->
    fetch_channel w (CHANNEL_ID cfg) = inr channel ->
    result_of (fetch_server_status cfg) w = inr data ->
    message_edit w m (published_text cfg data) = Some e ->
    exists evs,
      update_status cfg w st = (emit_on st evs, inr tt)
      /\ status_message (emit_on st evs) = Some m
      /\ In (Print (publish_error data e)) evs
      /\ count is_edit evs = 1%nat
      /\ count is_channel_send evs = 0%nat
      /\ (forall later,
             run_ticks cfg (w :: later) st
             = run_ticks cfg later (emit_on st evs))
      /\ (forall w' channel' data',
             fetch_channel w' (CHANNEL_ID cfg) = inr channel' ->
             result_of (fetch_server_status cfg) w' = inr data' ->
             In (MessageEdit m (published_text cfg data'))
                (output (fst (update_status cfg w' (emit_on st evs))))).
Proof.
  intros w st m channel data e Hheld Hchan Hdata Hedit.
  pose proof (update_status_holding cfg w st m channel data Hheld Hchan Hdata)
    as Hrun.
  eexists. split; [exact Hrun |].
  assert (Hevents : edit_events cfg w data m =
                    ((if host_is_up data
                      then [ Print ("[DEBUG] Final message:" ++ nl ++ " "
                                    ++ published_text cfg data) ]
                      else [])
                     ++ [ MessageEdit m (published_text cfg data);
                          Print (publish_error data e) ])%list)
    by (unfold edit_events; now rewrite Hedit).
  split; [exact Hheld |]. split; [| split; [| split; [| split]]].
  - right. apply in_or_app. right. rewrite Hevents.
    apply in_or_app. right. right. now left.
  - change (FetchChannel (CHANNEL_ID cfg)
            :: events_of (fetch_server_status cfg) w
            ++ edit_events cfg w data m)%list
      with ([FetchChannel (CHANNEL_ID cfg)]
            ++ events_of (fetch_server_status cfg) w
            ++ edit_events cfg w data m)%list.
    rewrite !count_app, Hevents, count_app.
    rewrite (count_none is_edit is_chat (events_of _ w));
      [| now intros [] | apply fetch_no_chat].
    now destruct (host_is_up data).
  - change (FetchChannel (CHANNEL_ID cfg)
            :: events_of (fetch_server_status cfg) w
            ++ edit_events cfg w data m)%list
      with ([FetchChannel (CHANNEL_ID cfg)]
            ++ events_of (fetch_server_status cfg) w
            ++ edit_events cfg w data m)%list.
    rewrite !count_app, Hevents, count_app.
    rewrite (count_none is_channel_send is_chat (events_of _ w));
      [| now intros [] | apply fetch_no_chat].
    now destruct (host_is_up data).
  - intros later. cbn [run_ticks]. now rewrite Hrun.
  - intros w' channel' data' Hchan' Hdata'.
    match goal with
    | |- context [update_status cfg w' ?s] =>
        rewrite (update_status_holding cfg w' s m channel' data' Hheld Hchan'
                   Hdata')
    end.
    cbn [fst emit_on output].
    apply in_or_app. right. right.
    apply in_or_app. right.
    unfold edit_events. apply in_or_app. right. now left.
Qed.

(** C10.  [manual_status] sends one reply through the context of the
    command, and the reply is the report of [format_status] on the
    snapshot, never the host-down banner, also when the host is down.  It
    runs the same from any [status_message] and leaves it as it found it,
    and it makes no edit and no channel post. *)
Theorem manual_status_replies_with_report :
  forall (ctx : Context) (w : World) (st : State),
    exists data,
      result_of (fetch_server_status cfg) w = inr data
      /\ manual_status cfg ctx w st =
         (emit_on st (events_of (fetch_server_status cfg) w ++
                      [ ContextSend ctx (render cfg data) ])%list,
          match context_send w ctx (render cfg data) with
          | Some e => inl e
          | None => inr tt
          end)
      /\ render cfg data <> FALLBACK
      /\ status_message (fst (manual_status cfg ctx w st)) = status_message st
      /\ handle_free (manual_status cfg ctx)
      /\ count is_edit (events_of (manual_status cfg ctx) w) = 0%nat
      /\ count is_channel_send (events_of (manual_status cfg ctx) w) = 0%nat.
Proof.
  intros ctx w st.
  destruct (fetch_server_status_returns cfg w) as (data & Hdata).
  exists data. split; [exact Hdata |].
  assert (Hrun : forall st0,
             manual_status cfg ctx w st0 =
             (emit_on st0 (events_of (fetch_server_status cfg) w ++
                           [ ContextSend ctx (render cfg data) ])%list,
              match context_send w ctx (render cfg data) with
              | Some e => inl e
              | None => inr tt
              end)).
  { intros st0. unfold manual_status, bind, call_unit, call.
    rewrite (fetch_server_status_handle_free cfg w), Hdata.
    now rewrite emit_on_app. }
  split; [apply Hrun |]. split; [apply format_status_not_fallback |].
  split; [now rewrite Hrun |]. split; [| split].
  - unfold manual_status. apply handle_free_bind.
    + apply fetch_server_status_handle_free.
    + auto with handle_free.
  - unfold events_of at 1. rewrite Hrun. cbn [fst]. rewrite emit_on_fresh.
    rewrite count_app.
    rewrite (count_none is_edit is_chat (events_of _ w));
      [reflexivity | now intros [] | apply fetch_no_chat].
  - unfold events_of at 1. rewrite Hrun. cbn [fst]. rewrite emit_on_fresh.
    rewrite count_app.
    rewrite (count_none is_channel_send is_chat (events_of _ w));
      [reflexivity | now intros [] | apply fetch_no_chat].
Qed.

End PipelineClaims.

(** ** The claims on the sample worlds *)

(** Where the spec and the code part: a reply ending in 24000, or in a
    negative count, is labelled like any other; the sentinel is not
    returned. *)
Lemma tick_24000_is_night_not_unavailable :
  parse_ticks Sample.cfg "The time is 24000" = inr 24000
  /\ snd (get_time_of_day_via_rcon Sample.cfg "10.0.0.7" 25575 "secret"
            (Sample.up "The time is 24000") fresh) = inr NIGHT
  /\ snd (get_time_of_day_via_rcon Sample.cfg "10.0.0.7" 25575 "secret"
            (Sample.up "The time is 24000") fresh) <> inr RCON_UNAVAILABLE
  /\ parse_ticks Sample.cfg "The time is -1" = inr (-1)
  /\ snd (get_time_of_day_via_rcon Sample.cfg "10.0.0.7" 25575 "secret"
            (Sample.up "The time is -1") fresh) = inr MORNING.
Proof.
  repeat split; try reflexivity.
  vm_compute. discriminate.
Qed.

Lemma out_of_range_ticks_labelled_witness :
  snd (get_time_of_day_via_rcon Sample.cfg "10.0.0.7" 25575 "secret"
         (Sample.up "The time is 30000") fresh) = inr NIGHT.
Proof.
  pose proof (out_of_range_ticks_labelled Sample.cfg "10.0.0.7" 25575
                "secret" "The time is 30000" 30000
                (Sample.up "The time is 30000") fresh
                eq_refl eq_refl eq_refl eq_refl eq_refl) as H.
  cbv zeta in H. destruct H as [H _]. apply H. lia.
Defined.

Lemma ticks_bucketed_lower_inclusive_witness :
  snd (get_time_of_day_via_rcon Sample.cfg "10.0.0.7" 25575 "secret"
         (Sample.up "The time is 6000") fresh) = inr MIDDAY.
Proof.
  pose proof (ticks_bucketed_lower_inclusive Sample.cfg "10.0.0.7" 25575
                "secret" "The time is 6000" 6000
                (Sample.up "The time is 6000") fresh
                eq_refl eq_refl eq_refl eq_refl eq_refl) as H.
  cbv zeta in H. destruct H as (_ & H & _). apply H. lia.
Defined.

Lemma offline_report_shows_version_only_witness :
  format_status Sample.cfg MC_OFFLINE "None" [] None None None None false =
  join nl [ "# **Server Stats**";
            "";
            "> **Minecraft Server**:";
            "> 🔴 Offline or Unreachable";
            "> Version: 1.20.4";
            "";
            "> **Host Server**:";
            "> 🔴 Offline";
            "> Host IP: 10.0.0.7";
            "> Host Port: 22" ].
Proof.
  destruct (offline_report_shows_version_only Sample.cfg MC_OFFLINE "None" []
              None None None None false) as (H & _).
  apply H. reflexivity.
Defined.

Lemma format_status_deterministic_total_witness :
  format_status Sample.cfg MC_ONLINE "0/20" [] None (Some "") (Some "Creative")
                None true =
  join nl
    [ "# **Server Stats**";
      "";
      "> **Minecraft Server**:";
      "> 🟢 Online";
      "> Players: 0/20";
      "> Online Players: (none)";
      "> MOTD: Unknown";
      "> Time of Day: Unknown";
      "> Map: Unknown";
      "> Version: 1.20.4";
      "> Game Mode: Creative";
      "";
      "> **Host Server**:";
      "> 🟢 Online";
      "> Host IP: 10.0.0.7";
      "> Host Port: 22" ].
Proof.
  destruct (format_status_deterministic_total Sample.cfg MC_ONLINE "0/20" []
              None (Some "") (Some "Creative") None true) as [H _].
  exact H.
Defined.

Lemma host_down_snapshot_skips_queries_witness :
  exists evs,
    fetch_server_status Sample.cfg Sample.host_down fresh =
    (emit_on fresh evs,
     inr {| host_is_up := false;
            mc_status := "🔴 Offline or Unreachable";
            motd := None;
            time_label := None;
            game_mode := None;
            map_name := None;
            players := "None";
            player_list := [] |})
    /\ evs = [ SocketConnect "10.0.0.7" 22;
               Print "[WARN] Host check failed: [Errno 111] Connection refused" ]
    /\ count is_server_query evs = 0%nat
    /\ count is_rcon evs = 0%nat.
Proof.
  apply (host_down_snapshot_skips_queries Sample.cfg Sample.host_down fresh
           Sample.refused).
  reflexivity.
Defined.

(** Where the spec and the code part: with the host up and the status
    query timing out, the report takes the offline block, and no line of
    it shows a field replaced by "Unknown". *)
Lemma query_down_report_is_offline_block :
  snd (fetch_server_status Sample.cfg Sample.query_down fresh) =
  inr {| host_is_up := true;
         mc_status := "🔴 Offline or Unreachable";
         motd := None;
         time_label := None;
         game_mode := None;
         map_name := None;
         players := "None";
         player_list := [] |}
  /\ format_status_lines Sample.cfg "🔴 Offline or Unreachable" "None" []
                         None None None None true =
     [ "# **Server Stats**";
       "";
       "> **Minecraft Server**:";
       "> 🔴 Offline or Unreachable";
       "> Version: 1.20.4";
       "";
       "> **Host Server**:";
       "> 🟢 Online";
       "> Host IP: 10.0.0.7";
       "> Host Port: 22" ]
  /\ ~ In "> MOTD: Unknown"
          (format_status_lines Sample.cfg "🔴 Offline or Unreachable" "None" []
                               None None None None true)
  /\ startswith "🔴 Offline or Unreachable" ONLINE_GLYPH = false.
Proof.
  repeat split.
  intros H. vm_compute in H.
  repeat (destruct H as [H | H]; [discriminate H |]). exact H.
Qed.

Lemma query_failure_renders_offline_block_witness :
  render Sample.cfg (initial_vars true) =
  join nl [ "# **Server Stats**";
            "";
            "> **Minecraft Server**:";
            "> 🔴 Offline or Unreachable";
            "> Version: 1.20.4";
            "";
            "> **Host Server**:";
            "> 🟢 Online";
            "> Host IP: 10.0.0.7";
            "> Host Port: 22" ].
Proof.
  pose proof (query_failure_renders_offline_block Sample.cfg Sample.query_down
                fresh Sample.timeout eq_refl eq_refl) as H.
  cbv zeta in H. destruct H as (_ & H & _). exact H.
Defined.

(** Where the spec and the code part: with the host up, a credential set
    and the status query timing out, the cycle ends after the warning of
    the query; no RCON session is opened and the time label stays absent. *)
Lemma query_down_skips_resolver :
  RCON_PASS Sample.cfg = "secret"
  /\ fetch_server_status Sample.cfg Sample.query_down fresh =
     ({| status_message := None;
         output :=
           [ SocketConnect "10.0.0.7" 22;
             Print "[DEBUG] Host 22 reachable on 10.0.0.7";
             ServerStatus "10.0.0.7" 25565 25525;
             Print "[WARN] Server query failed: TimeoutError: timed out" ] |},
      inr {| host_is_up := true;
             mc_status := "🔴 Offline or Unreachable";
             motd := None;
             time_label := None;
             game_mode := None;
             map_name := None;
             players := "None";
             player_list := [] |})
  /\ count is_rcon
           (output (fst (fetch_server_status Sample.cfg Sample.query_down
                                             fresh))) = 0%nat.
Proof. repeat split. Qed.

Lemma resolver_runs_after_successful_query_witness :
  exists label,
    result_of (resolve_time Sample.cfg) (Sample.up "The time is 7000")
    = inr label
    /\ In label TIME_LABELS
    /\ fetch_server_status Sample.cfg (Sample.up "The time is 7000") fresh =
       (emit_on fresh
          (probe_ok_events Sample.cfg
           ++ query_events Sample.cfg (Sample.up "The time is 7000")
           ++ events_of (resolve_time Sample.cfg)
                        (Sample.up "The time is 7000"))%list,
        inr (online_snapshot Sample.status Sample.query label)).
Proof.
  destruct (resolver_runs_after_successful_query Sample.cfg
              (Sample.up "The time is 7000") fresh eq_refl) as [_ H].
  apply (H Sample.status Sample.query). reflexivity.
Defined.

Lemma failed_edit_keeps_handle_witness :
  exists evs,
    update_status Sample.cfg Sample.edit_rejected Sample.holding
    = (emit_on Sample.holding evs, inr tt)
    /\ status_message (emit_on Sample.holding evs) = Some (Msg 1)
    /\ count is_edit evs = 1%nat
    /\ count is_channel_send evs = 0%nat.
Proof.
  destruct (failed_edit_keeps_handle Sample.cfg Sample.edit_rejected
              Sample.holding (Msg 1) (Chan 42)
              (online_snapshot Sample.status Sample.query MIDDAY)
              Sample.rejected eq_refl eq_refl eq_refl eq_refl)
    as (evs & Hrun & Hheld & _ & Hedits & Hsends & _).
  exists evs. repeat split; assumption.
Defined.

(** * Further properties of the code *)

(** ** Reading the reply *)

Lemma lstrip_blank s : all_chars isspace s = true -> lstrip s = "".
Proof.
  induction s as [| c r IH]; simpl; [reflexivity |].
  intros H. apply andb_prop in H as [Hc Hr]. rewrite Hc. now apply IH.
Qed.

Lemma split_from_lstrip s : split_from "" (lstrip s) = split_from "" s.
Proof.
  induction s as [| c r IH]; simpl; [reflexivity |].
  destruct (isspace c) eqn:Hc; [exact IH |].
  simpl. now rewrite Hc.
Qed.

Lemma split_from_rstrip s : forall cur, split_from cur (rstrip s) = split_from cur s.
Proof.
  induction s as [| c r IH]; intros cur; [reflexivity |].
  cbn [rstrip].
  destruct (rstrip r) as [| k kept] eqn:Hr.
  - destruct (isspace c) eqn:Hc.
    + cbn [split_from]. rewrite Hc, <- (IH ""). cbn [split_from truthy].
      now destruct (truthy cur).
    + cbn [split_from]. rewrite Hc, <- (IH (cur ++ String c "")). reflexivity.
  - cbn [split_from]. destruct (isspace c).
    + now rewrite <- (IH "").
    + now rewrite <- (IH (cur ++ String c "")).
Qed.

Lemma split_strip s : split (strip s) = split s.
Proof. unfold split, strip. now rewrite split_from_rstrip, split_from_lstrip. Qed.

Lemma uint_value_acc d : forall acc, Z.pos (Pos.of_uint_acc d acc) = uint_value (Z.pos acc) d.
Proof.
  induction d; intros acc; cbn [Pos.of_uint_acc uint_value]; try reflexivity;
    rewrite IHd; f_equal; lia.
Qed.

Lemma uint_value_of_uint d : Z.of_N (Pos.of_uint d) = uint_value 0 d.
Proof.
  induction d; cbn [Pos.of_uint uint_value]; try reflexivity; try exact IHd;
    cbn [Z.of_N]; now rewrite uint_value_acc.
Qed.

Lemma append_empty_r (s : string) : s ++ "" = s.
Proof. induction s as [| c r IH]; simpl; [reflexivity | now rewrite IH]. Qed.

Lemma append_assoc (a b c : string) : (a ++ b) ++ c = a ++ (b ++ c).
Proof. induction a as [| x r IH]; simpl; [reflexivity | now rewrite IH]. Qed.

Lemma split_from_blank trail :
  all_chars isspace trail = true ->
  forall cur, split_from cur trail = if truthy cur then [cur] else [].
Proof.
  induction trail as [| c r IH]; intros H cur; [reflexivity |].
  cbn [all_chars] in H. apply andb_prop in H as [Hc Hr].
  cbn [split_from]. rewrite Hc, (IH Hr ""). cbn [truthy].
  reflexivity.
Qed.

Lemma split_from_token tok trail :
  no_space tok = true ->
  all_chars isspace trail = true ->
  forall cur,
    split_from cur (tok ++ trail) =
    if truthy (cur ++ tok) then [cur ++ tok] else [].
Proof.
  intros Htok Htrail.
  induction tok as [| c r IH]; intros cur.
  - cbn [append]. rewrite append_empty_r. now apply split_from_blank.
  - unfold no_space in Htok. cbn [all_chars] in Htok.
    apply andb_prop in Htok as [Hc Hr].
    cbn [append split_from].
    destruct (isspace c); [discriminate Hc |].
    rewrite (IH Hr (cur ++ String c "")), append_assoc. reflexivity.
Qed.

Lemma split_from_last s sep tok trail :
  isspace sep = true ->
  no_space tok = true ->
  truthy tok = true ->
  all_chars isspace trail = true ->
  forall cur,
    exists pre,
      split_from cur (s ++ String sep (tok ++ trail)) = (pre ++ [tok])%list.
Proof.
  intros Hsep Htok Hne Htrail.
  induction s as [| c r IH]; intros cur.
  - cbn [append split_from]. rewrite Hsep.
    rewrite (split_from_token tok trail Htok Htrail ""). cbn [append].
    rewrite Hne.
    destruct (truthy cur); [now exists [cur] | now exists []].
  - cbn [append split_from].
    destruct (isspace c).
    + destruct (IH "") as [pre Hpre]. rewrite Hpre.
      destruct (truthy cur); [now exists (cur :: pre) | now exists pre].
    + apply IH.
Qed.

Lemma last_item_snoc pre x : last_item (pre ++ [x])%list = inr x.
Proof.
  induction pre as [| a rest IH]; [reflexivity |].
  cbn [app last_item]. destruct (rest ++ [x])%list eqn:H.
  - now destruct rest.
  - exact IH.
Qed.

Lemma scan_string_of_uint d :
  forall b acc n,
    b = true \/ d <> Decimal.Nil ->
    scan_digits b acc n (NilEmpty.string_of_uint d) =
    Some (uint_value acc d,
          (n + String.length (NilEmpty.string_of_uint d))%nat, "").
Proof.
  induction d; intros b acc n Hb;
    cbn [NilEmpty.string_of_uint scan_digits uint_value String.length].
  1: { destruct Hb as [-> | Hb]; [| congruence]. now rewrite Nat.add_0_r. }
  all: change (is_digit _) with true; cbv iota;
       rewrite (IHd true _ (S n) (or_introl eq_refl));
       rewrite Nat.add_succ_r; reflexivity.
Qed.

Lemma string_of_uint_no_space d :
  no_space (NilEmpty.string_of_uint d) = true.
Proof. induction d; [reflexivity | ..]; exact IHd. Qed.

Lemma py_int_of_uint limit d :
  d <> Decimal.Nil ->
  (String.length (NilEmpty.string_of_uint d) <= 640)%nat ->
  py_int limit (NilEmpty.string_of_uint d) = inr (uint_value 0 d).
Proof.
  intros Hd Hlen.
  assert (Hscan := scan_string_of_uint d false 0 0%nat (or_intror Hd)).
  assert (Hbody : py_int limit (NilEmpty.string_of_uint d) =
                  match scan_digits false 0 0 (NilEmpty.string_of_uint d) with
                  | None => inl (invalid_literal (NilEmpty.string_of_uint d))
                  | Some (v, ndigits, rest) =>
                      if ((640 <? ndigits) && (0 <? limit) && (limit <? ndigits))%nat
                      then inl (too_many_digits limit ndigits)
                      else if truthy rest
                           then inl (invalid_literal (NilEmpty.string_of_uint d))
                           else inr v
                  end).
  { destruct d; [congruence | ..]; reflexivity. }
  rewrite Hbody, Hscan. cbn [Nat.add truthy].
  apply Nat.ltb_ge in Hlen. now rewrite Hlen.
Qed.

Lemma py_int_str_of_int limit n :
  (String.length (str_of_int n) <= 640)%nat ->
  py_int limit (str_of_int n) = inr n.
Proof.
  unfold str_of_int. destruct n as [| p | p]; intros Hlen.
  - reflexivity.
  - cbn [Z.to_int NilZero.string_of_int] in *.
    pose proof (Unsigned.to_uint_nonnil p) as Hnil.
    assert (Hs : NilZero.string_of_uint (Pos.to_uint p)
                 = NilEmpty.string_of_uint (Pos.to_uint p))
      by (destruct (Pos.to_uint p); [congruence | ..]; reflexivity).
    rewrite Hs in *. rewrite (py_int_of_uint limit _ Hnil Hlen).
    now rewrite <- uint_value_of_uint, Unsigned.of_to.
  - cbn [Z.to_int NilZero.string_of_int] in *.
    pose proof (Unsigned.to_uint_nonnil p) as Hnil.
    assert (Hs : NilZero.string_of_uint (Pos.to_uint p)
                 = NilEmpty.string_of_uint (Pos.to_uint p))
      by (destruct (Pos.to_uint p); [congruence | ..]; reflexivity).
    rewrite Hs in *. cbn [String.length] in Hlen.
    unfold py_int.
    rewrite (scan_string_of_uint _ false 0 0%nat (or_intror Hnil)).
    cbn [Nat.add truthy].
    assert (Hlt : (640 <? String.length
                     (NilEmpty.string_of_uint (Pos.to_uint p)))%nat = false)
      by (apply Nat.ltb_ge; lia).
    rewrite Hlt. cbn [andb].
    now rewrite <- uint_value_of_uint, Unsigned.of_to.
Qed.

Lemma all_chars_app p a b :
  all_chars p (a ++ b) = all_chars p a && all_chars p b.
Proof.
  induction a as [| c r IH]; simpl; [reflexivity |].
  now rewrite IH, andb_assoc.
Qed.

Lemma split_from_tokens s :
  forall cur,
    no_space cur = true -> forallb is_token (split_from cur s) = true.
Proof.
  induction s as [| c r IH]; intros cur Hcur; cbn [split_from].
  - destruct (truthy cur) eqn:Ht; [| reflexivity].
    cbn [forallb]. unfold is_token. now rewrite Ht, Hcur.
  - destruct (isspace c) eqn:Hc.
    + destruct (truthy cur) eqn:Ht; [| now apply IH].
      cbn [forallb]. unfold is_token at 1. rewrite Ht, Hcur.
      now apply IH.
    + apply IH. unfold no_space in *.
      rewrite all_chars_app, Hcur. cbn [all_chars]. now rewrite Hc.
Qed.

Lemma str_of_int_is_token n : is_token (str_of_int n) = true.
Proof.
  unfold str_of_int. destruct n as [| p | p]; [reflexivity | |];
    cbn [Z.to_int NilZero.string_of_int];
    pose proof (Unsigned.to_uint_nonnil p) as Hnil;
    pose proof (string_of_uint_no_space (Pos.to_uint p)) as Hns;
    destruct (Pos.to_uint p); try congruence; exact Hns.
Qed.

Section Reply.

Variable cfg : Config.

(** X1.  The tokens of [s.split()] are never empty and hold no white
    space, the last one included, so [int] is applied to a bare token;
    and the [strip()] before the [split()] does not change the tokens. *)
Theorem split_yields_bare_tokens :
  forall s : string,
    forallb is_token (split s) = true
    /\ (forall token, last_item (split (strip s)) = inr token ->
                      is_token token = true)
    /\ split (strip s) = split s.
Proof.
  intros s. split; [now apply split_from_tokens | split].
  - rewrite split_strip. intros token.
    pose proof (split_from_tokens s "" eq_refl) as Hall.
    fold (split s) in Hall.
    induction (split s) as [| t rest IH]; [discriminate |].
    cbn [forallb] in Hall. apply andb_prop in Hall as [Ht Hrest].
    cbn [last_item]. destruct rest as [| t' rest'].
    + now intros [= <-].
    + intros H. now apply IH.
  - apply split_strip.
Qed.

(** X2.  A reply that ends in a decimal integer of at most 640
    characters, after any text closed by a white-space character and before
    any trailing white space, parses to that integer; so does the bare
    integer. *)
Theorem reply_ending_in_integer_parses :
  forall (lead : string) (sep : ascii) (n : Z) (trail : string),
    isspace sep = true ->
    all_chars isspace trail = true ->
    (String.length (str_of_int n) <= 640)%nat ->
    parse_ticks cfg (lead ++ String sep (str_of_int n ++ trail)) = inr n
    /\ parse_ticks cfg (str_of_int n ++ trail) = inr n.
Proof.
  intros lead sep n trail Hsep Htrail Hlen.
  pose proof (str_of_int_is_token n) as Htok.
  unfold is_token in Htok. apply andb_prop in Htok as [Hne Hns].
  unfold parse_ticks. rewrite !split_strip. unfold split. split.
  - destruct (split_from_last lead sep (str_of_int n) trail Hsep Hns Hne
                              Htrail "") as [pre Hpre].
    rewrite Hpre, last_item_snoc. now apply py_int_str_of_int.
  - rewrite (split_from_token _ trail Hns Htrail ""). cbn [append].
    rewrite Hne. cbn [last_item]. now apply py_int_str_of_int.
Qed.

(** X3.  A reply that is empty or all white space has no last token: the
    parse raises [IndexError], and the resolver, its session having
    answered, closes the session, prints the warning and returns the
    "RCON unavailable" label. *)
Theorem blank_reply_is_unavailable :
  forall (reply : string),
    all_chars isspace reply = true ->
    parse_ticks cfg reply = inl (Exn "IndexError" "list index out of range")
    /\ (forall ip port password w st,
           truthy password = true ->
           rcon_connect w ip port = None ->
           rcon_login w password = None ->
           rcon_run w "time query daytime" = inr reply ->
           get_time_of_day_via_rcon cfg ip port password w st =
           (emit_on st (session_events ip port password ++
                        [ rcon_warning
                            (Exn "IndexError" "list index out of range") ])%list,
            inr RCON_UNAVAILABLE)).
Proof.
  intros reply Hblank.
  assert (Hparse : parse_ticks cfg reply
                   = inl (Exn "IndexError" "list index out of range")).
  { unfold parse_ticks. rewrite split_strip. unfold split.
    now rewrite (split_from_blank reply Hblank ""). }
  split; [exact Hparse |].
  intros ip port password w st Hpw Hconn Hlogin Hrun.
  now rewrite (get_time_of_day_answered cfg ip port password reply w st
                 Hpw Hconn Hlogin Hrun), Hparse.
Qed.

End Reply.

Lemma split_yields_bare_tokens_witness :
  is_token "7000" = true.
Proof.
  destruct (split_yields_bare_tokens "The time is 7000 ") as (_ & H & _).
  apply H. reflexivity.
Defined.

Lemma reply_ending_in_integer_parses_witness :
  parse_ticks Sample.cfg "The time is 7000" = inr 7000.
Proof.
  assert (Hlen : (String.length (str_of_int 7000) <= 640)%nat)
    by (vm_compute; lia).
  destruct (reply_ending_in_integer_parses Sample.cfg "The time is" " "
              7000 "" eq_refl eq_refl Hlen) as [H _].
  exact H.
Defined.

Lemma blank_reply_is_unavailable_witness :
  parse_ticks Sample.cfg "  " = inl (Exn "IndexError" "list index out of range").
Proof.
  destruct (blank_reply_is_unavailable Sample.cfg "  " eq_refl) as [H _].
  exact H.
Defined.

(** ** The resolver and its session *)

Section Session.

Variable cfg : Config.

(** The resolver on a session one of whose steps raises. *)
Lemma get_time_of_day_failed :
  forall (ip : string) (port : Z) (password : string) (w : World)
         (st : State) (e : exn),
    truthy password = true ->
    session_outcome cfg w ip port password = inl e ->
    exists evs,
      get_time_of_day_via_rcon cfg ip port password w st =
      (emit_on st (evs ++ [rcon_warning e])%list, inr RCON_UNAVAILABLE)
      /\ forallb is_rcon evs = true.
Proof.
  intros ip port password w st e Hpw Hout.
  unfold get_time_of_day_via_rcon. rewrite Hpw. cbn [negb].
  unfold try_except, with_client, finally, bind, call_unit, call, lift, print,
         emit, ret.
  unfold session_outcome in Hout.
  destruct (rcon_connect w ip port) as [e1 |].
  { injection Hout as ->. exists [RconConnect ip port].
    split; [now rewrite !emit_on_app | reflexivity]. }
  destruct (rcon_login w password) as [e2 |].
  { injection Hout as ->.
    exists [RconConnect ip port; RconLogin password; RconClose].
    split; [now rewrite !emit_on_app | reflexivity]. }
  destruct (rcon_run w "time query daytime") as [e3 | reply].
  { injection Hout as ->. exists (session_events ip port password).
    split; [now rewrite !emit_on_app | reflexivity]. }
  rewrite Hout. exists (session_events ip port password).
  split; [now rewrite !emit_on_app | reflexivity].
Qed.

(** X4.  With a credential set, whichever step of the session raises
    (opening it, the login, the command, the parse of the reply), the
    resolver does not raise: it prints one warning naming the exception
    after its RCON calls and returns the "RCON unavailable" label. *)
Theorem session_failure_is_unavailable :
  forall (ip : string) (port : Z) (password : string) (w : World)
         (st : State) (e : exn),
    truthy password = true ->
    session_outcome cfg w ip port password = inl e ->
    exists evs,
      get_time_of_day_via_rcon cfg ip port password w st =
      (emit_on st (evs ++ [rcon_warning e])%list, inr RCON_UNAVAILABLE)
      /\ forallb is_rcon evs = true.
Proof. exact get_time_of_day_failed. Qed.

(** X5.  The resolver never raises and leaves [status_message] alone: for
    every credential and world it returns one of the six labels, and the
    label is "RCON not configured" exactly when the credential is empty. *)
Theorem resolver_always_returns_a_label :
  forall (ip : string) (port : Z) (password : string) (w : World)
         (st : State),
    exists evs label,
      get_time_of_day_via_rcon cfg ip port password w st
      = (emit_on st evs, inr label)
      /\ In label TIME_LABELS
      /\ (label = RCON_NOT_CONFIGURED <-> password = "").
Proof.
  intros ip port password w st.
  destruct password as [| c r].
  - eexists. eexists. split; [reflexivity |]. split; [simpl; tauto | tauto].
  - assert (Hpw : truthy (String c r) = true) by reflexivity.
    assert (Hne : forall label,
               In label [MORNING; MIDDAY; EVENING; NIGHT; RCON_UNAVAILABLE] ->
               In label TIME_LABELS
               /\ (label = RCON_NOT_CONFIGURED <-> String c r = "")).
    { intros label Hin. split.
      - unfold TIME_LABELS. simpl in *. tauto.
      - split; [| discriminate].
        intros ->. simpl in Hin.
        repeat (destruct Hin as [Hin | Hin]; [discriminate Hin |]).
        contradiction. }
    destruct (session_outcome cfg w ip port (String c r)) as [e | t] eqn:Hout.
    + destruct (get_time_of_day_failed ip port _ w st e Hpw Hout)
        as (evs & Hrun & _).
      eexists. eexists. split; [exact Hrun |].
      apply Hne. simpl. tauto.
    + unfold session_outcome in Hout.
      destruct (rcon_connect w ip port) as [e1 |] eqn:Hc; [discriminate |].
      destruct (rcon_login w (String c r)) as [e2 |] eqn:Hl; [discriminate |].
      destruct (rcon_run w "time query daytime") as [e3 | reply] eqn:Hr;
        [discriminate |].
      rewrite (get_time_of_day_answered cfg ip port _ reply w st Hpw Hc Hl Hr).
      rewrite Hout. eexists. eexists. split; [reflexivity |].
      apply Hne. unfold label_of_ticks.
      destruct (t <? 6000); [simpl; tauto |].
      destruct (t <? 12000); [simpl; tauto |].
      destruct (t <? 18000); simpl; tauto.
Qed.

(** X6.  The RCON session is closed exactly once when it was opened and
    never otherwise, whatever happens inside it; the login is attempted
    only on an opened session and the command is sent only after a login
    that went through. *)
Theorem rcon_session_closed_once_opened :
  forall (ip : string) (port : Z) (password : string) (w : World),
    let evs := events_of (get_time_of_day_via_rcon cfg ip port password) w in
    let opened := truthy password && succeeded (rcon_connect w ip port) in
    count is_rcon_close evs = (if opened then 1 else 0)%nat
    /\ count is_rcon_login evs = (if opened then 1 else 0)%nat
    /\ count is_rcon_run evs
       = (if opened && succeeded (rcon_login w password) then 1 else 0)%nat.
Proof.
  intros ip port password w. cbv zeta.
  unfold events_of, get_time_of_day_via_rcon.
  destruct (truthy password); cbn [negb andb]; [| repeat split].
  unfold try_except, with_client, finally, bind, call_unit, call, lift,
         print, emit, ret.
  destruct (rcon_connect w ip port); [repeat split |].
  destruct (rcon_login w password); [repeat split |].
  destruct (rcon_run w "time query daytime") as [e | reply]; [repeat split |].
  destruct (parse_ticks cfg reply); repeat split.
Qed.

End Session.

Lemma session_failure_is_unavailable_witness :
  exists evs,
    get_time_of_day_via_rcon Sample.cfg "10.0.0.7" 25575 "secret"
      (Scenario.rcon_world None (Some Scenario.wrong_password)
                           (inr "The time is 7000")) fresh
    = (emit_on fresh (evs ++ [rcon_warning Scenario.wrong_password])%list,
       inr RCON_UNAVAILABLE)
    /\ forallb is_rcon evs = true.
Proof.
  apply (session_failure_is_unavailable Sample.cfg "10.0.0.7" 25575 "secret"
           (Scenario.rcon_world None (Some Scenario.wrong_password)
                                (inr "The time is 7000"))
           fresh Scenario.wrong_password); reflexivity.
Defined.

(** ** The snapshot and its report *)

Section Snapshot.

Variable cfg : Config.

Lemma time_label_truthy label : In label TIME_LABELS -> truthy label = true.
Proof.
  unfold TIME_LABELS. simpl.
  intros [<- | [<- | [<- | [<- | [<- | [<- | []]]]]]]; reflexivity.
Qed.

(** X7.  The assembler never raises and makes no call to the chat
    platform.  Its snapshot records the outcome of the probe, and is all or
    nothing: either every game-server entry is at its default under the
    offline status, or the status is online and every entry comes from the
    two queries of this cycle, with the label the resolver returned. *)
Theorem snapshot_all_or_nothing :
  forall (w : World) (st : State),
    exists evs data,
      fetch_server_status cfg w st = (emit_on st evs, inr data)
      /\ forallb (fun e => negb (is_chat e)) evs = true
      /\ host_is_up data
         = succeeded (create_connection w (HOST_IP cfg) (HOST_PORT cfg))
      /\ (data = initial_vars (host_is_up data)
          \/ exists status query label,
                host_is_up data = true
                /\ query_outcome cfg w = inr (status, query)
                /\ result_of (resolve_time cfg) w = inr label
                /\ data = online_snapshot status query label).
Proof.
  intros w st.
  exists (events_of (fetch_server_status cfg) w).
  rewrite (fetch_server_status_handle_free cfg w st).
  pose proof (fetch_no_chat cfg w) as Hchat.
  unfold result_of.
  destruct (create_connection w (HOST_IP cfg) (HOST_PORT cfg)) as [e |] eqn:Hc.
  - rewrite (fetch_host_down cfg w fresh e Hc). cbn [snd].
    eexists. split; [reflexivity |]. split; [exact Hchat |].
    split; [reflexivity | now left].
  - destruct (query_outcome cfg w) as [e | [status query]] eqn:Hq.
    + rewrite (fetch_query_failed cfg w fresh e Hc Hq). cbn [snd].
      eexists. split; [reflexivity |]. split; [exact Hchat |].
      split; [reflexivity | now left].
    + destruct (fetch_query_answered cfg w fresh status query Hc Hq)
        as (label & Hres & Hin & Hrun).
      rewrite Hrun. cbn [snd].
      eexists. split; [reflexivity |]. split; [exact Hchat |].
      split; [reflexivity |]. right.
      exists status, query, label. repeat split; assumption.
Qed.

(** X8.  When the host and both queries answer, the report of the cycle
    shows the online block with the numbers of the status query, the names
    of the metadata query joined by commas (or "(none)"), the label of the
    resolver as it is, and a host block marked online; a server that
    reports no game mode is shown as "Survival", one that reports no map
    name as "Unknown". *)
Theorem online_report_shows_query_fields :
  forall (w : World) (st : State) (status : StatusResponse)
         (query : QueryResponse),
    create_connection w (HOST_IP cfg) (HOST_PORT cfg) = None ->
    query_outcome cfg w = inr (status, query) ->
    exists label data,
      snd (fetch_server_status cfg w st) = inr data
      /\ result_of (resolve_time cfg) w = inr label
      /\ render cfg data =
         join nl
           [ "# **Server Stats**";
             "";
             "> **Minecraft Server**:";
             "> 🟢 Online";
             "> Players: " ++ str_of_int (players_online status) ++ "/"
               ++ str_of_int (players_max status);
             "> Online Players: "
               ++ match q_players_list query with
                  | [] => "(none)"
                  | _ :: _ => join ", " (q_players_list query)
                  end;
             "> MOTD: "
               ++ or_default
                    (Some (getattr (q_motd_raw query) (q_motd_str query)))
                    "Unknown";
             "> Time of Day: " ++ label;
             "> Map: "
               ++ or_default (Some (getattr (q_map_name query) "Unknown"))
                             "Unknown";
             "> Version: " ++ MC_VERSION cfg;
             "> Game Mode: "
               ++ or_default (Some (getattr (q_gamemode query) "Survival"))
                             "Unknown";
             "";
             "> **Host Server**:";
             "> 🟢 Online";
             "> Host IP: " ++ HOST_IP cfg;
             "> Host Port: " ++ str_of_int (HOST_PORT cfg) ]
      /\ (q_gamemode query = None ->
          In "> Game Mode: Survival"
             (format_status_lines cfg (mc_status data) (players data)
                (player_list data) (motd data) (time_label data)
                (game_mode data) (map_name data) (host_is_up data)))
      /\ (q_map_name query = None ->
          In "> Map: Unknown"
             (format_status_lines cfg (mc_status data) (players data)
                (player_list data) (motd data) (time_label data)
                (game_mode data) (map_name data) (host_is_up data))).
Proof.
  intros w st status query Hup Hq.
  destruct (fetch_query_answered cfg w st status query Hup Hq)
    as (label & Hres & Hin & Hrun).
  exists label, (online_snapshot status query label).
  rewrite Hrun. split; [reflexivity |]. split; [exact Hres |].
  pose proof (time_label_truthy label Hin) as Htruthy.
  assert (Hlines :
            format_status_lines cfg MC_ONLINE
              (str_of_int (players_online status) ++ "/"
               ++ str_of_int (players_max status))
              (q_players_list query)
              (Some (getattr (q_motd_raw query) (q_motd_str query)))
              (Some label)
              (Some (getattr (q_gamemode query) "Survival"))
              (Some (getattr (q_map_name query) "Unknown")) true
            = [ "# **Server Stats**";
                "";
                "> **Minecraft Server**:";
                "> 🟢 Online";
                "> Players: " ++ str_of_int (players_online status) ++ "/"
                  ++ str_of_int (players_max status);
                "> Online Players: "
                  ++ match q_players_list query with
                     | [] => "(none)"
                     | _ :: _ => join ", " (q_players_list query)
                     end;
                "> MOTD: "
                  ++ or_default
                       (Some (getattr (q_motd_raw query) (q_motd_str query)))
                       "Unknown";
                "> Time of Day: " ++ label;
                "> Map: "
                  ++ or_default (Some (getattr (q_map_name query) "Unknown"))
                                "Unknown";
                "> Version: " ++ MC_VERSION cfg;
                "> Game Mode: "
                  ++ or_default (Some (getattr (q_gamemode query) "Survival"))
                                "Unknown";
                "";
                "> **Host Server**:";
                "> 🟢 Online";
                "> Host IP: " ++ HOST_IP cfg;
                "> Host Port: " ++ str_of_int (HOST_PORT cfg) ]).
  { rewrite format_status_lines_online by reflexivity.
    cbn [or_default]. rewrite Htruthy. reflexivity. }
  split; [| split].
  - unfold render, format_status, online_snapshot.
    cbn [mc_status players player_list motd time_label game_mode map_name
         host_is_up].
    now rewrite Hlines.
  - intros Hmode. unfold online_snapshot.
    cbn [mc_status players player_list motd time_label game_mode map_name
         host_is_up].
    rewrite Hlines, Hmode. cbn [getattr or_default truthy].
    simpl. tauto.
  - intros Hmap. unfold online_snapshot.
    cbn [mc_status players player_list motd time_label game_mode map_name
         host_is_up].
    rewrite Hlines, Hmap. cbn [getattr or_default truthy].
    simpl. tauto.
Qed.

End Snapshot.

Lemma online_report_shows_query_fields_witness :
  exists label data,
    snd (fetch_server_status Sample.cfg (Sample.up "The time is 7000") fresh)
    = inr data
    /\ result_of (resolve_time Sample.cfg) (Sample.up "The time is 7000")
       = inr label
    /\ render Sample.cfg data =
       join nl
         [ "# **Server Stats**";
           "";
           "> **Minecraft Server**:";
           "> 🟢 Online";
           "> Players: 3/20";
           "> Online Players: Alice, Bob, Carol";
           "> MOTD: Welcome";
           "> Time of Day: " ++ label;
           "> Map: world";
           "> Version: 1.20.4";
           "> Game Mode: Survival";
           "";
           "> **Host Server**:";
           "> 🟢 Online";
           "> Host IP: 10.0.0.7";
           "> Host Port: 22" ].
Proof.
  destruct (online_report_shows_query_fields Sample.cfg
              (Sample.up "The time is 7000") fresh Sample.status Sample.query
              eq_refl eq_refl)
    as (label & data & Hdata & Hlabel & Hrender & _).
  exists label, data. repeat split; assumption.
Defined.

(** ** The scheduled path beyond a held message *)

Section Scheduler.

Variable cfg : Config.

Lemma update_status_channel_lost w st e :
  fetch_channel w (CHANNEL_ID cfg) = inl e ->
  update_status cfg w st = (emit_on st [FetchChannel (CHANNEL_ID cfg)], inl e).
Proof. intros H. unfold update_status, bind, call. now rewrite H. Qed.

(** One scheduled tick while no message is held. *)
Lemma update_status_idle w st channel data :
  status_message st = None ->
  fetch_channel w (CHANNEL_ID cfg) = inr channel ->
  result_of (fetch_server_status cfg) w = inr data ->
  let text := published_text cfg data in
  let before :=
    (FetchChannel (CHANNEL_ID cfg)
     :: events_of (fetch_server_status cfg) w
     ++ (if host_is_up data
         then [ Print ("[DEBUG] Final message:" ++ nl ++ " " ++ text) ]
         else [])
     ++ [ ChannelSend channel text ])%list in
  update_status cfg w st =
  match channel_send w channel text with
  | inr m =>
      ({| status_message := Some m;
          output := (output st ++ before
                     ++ (if host_is_up data
                         then [ Print "[DEBUG] Status updated" ]
                         else []))%list |},
       inr tt)
  | inl e =>
      (emit_on st (before ++ [ Print (publish_error data e) ])%list, inr tt)
  end.
Proof.
  intros Hidle Hchan Hdata. cbv zeta.
  unfold update_status, bind, call. rewrite Hchan.
  rewrite (fetch_server_status_handle_free cfg w), Hdata.
  unfold published_text, publish_error.
  destruct (host_is_up data); cbn [negb].
  - unfold try_except, bind, print, emit, get_status_message, call,
           set_status_message.
    cbn [emit_on status_message output]. rewrite Hidle.
    destruct (channel_send w channel (render cfg data)); cbn [app].
    + unfold emit_on. cbn [status_message output].
      now rewrite <- !app_assoc.
    + unfold emit_on. cbn [status_message output].
      now rewrite <- !app_assoc.
  - unfold try_except, bind, print, emit, get_status_message, call,
           set_status_message.
    cbn [emit_on status_message output]. rewrite Hidle.
    destruct (channel_send w channel FALLBACK); cbn [app].
    + unfold emit_on. cbn [status_message output].
      now rewrite <- !app_assoc.
    + unfold emit_on. cbn [status_message output].
      now rewrite app_nil_r, <- !app_assoc.
Qed.

Lemma edit_events_counts w data m :
  count is_edit (edit_events cfg w data m) = 1%nat
  /\ count is_channel_send (edit_events cfg w data m) = 0%nat.
Proof.
  unfold edit_events.
  destruct (host_is_up data);
    destruct (message_edit w m (published_text cfg _)); split; reflexivity.
Qed.

Lemma fetch_events_counts w :
  count is_edit (events_of (fetch_server_status cfg) w) = 0%nat
  /\ count is_channel_send (events_of (fetch_server_status cfg) w) = 0%nat.
Proof.
  split.
  - apply (count_none is_edit is_chat); [now intros [] | apply fetch_no_chat].
  - apply (count_none is_channel_send is_chat);
      [now intros [] | apply fetch_no_chat].
Qed.

(** Membership in an output written with [++] and [::]. *)
Ltac solve_in :=
  repeat (progress (rewrite ?in_app_iff; cbn [In]));
  match goal with
  | |- context [host_is_up ?d] => destruct (host_is_up d); cbn [In]
  | _ => idtac
  end;
  solve [auto 20].

(** Counting in the output of a tick. *)
Ltac count_tick Hfetch :=
  change (FetchChannel ?id :: ?l)%list with ([FetchChannel id] ++ l)%list;
  rewrite !count_app, Hfetch;
  match goal with
  | |- context [host_is_up ?d] => now destruct (host_is_up d)
  end.

(** What a tick does while no message is held. *)
Lemma update_status_idle_summary :
  forall (w : World) (st : State) (channel : Channel) (data : StatusData),
    status_message st = None ->
    fetch_channel w (CHANNEL_ID cfg) = inr channel ->
    result_of (fetch_server_status cfg) w = inr data ->
    exists evs,
      fst (update_status cfg w st) =
      {| status_message :=
           match channel_send w channel (published_text cfg data) with
           | inr m => Some m
           | inl _ => None
           end;
         output := (output st ++ evs)%list |}
      /\ snd (update_status cfg w st) = inr tt
      /\ In (ChannelSend channel (published_text cfg data)) evs
      /\ count is_channel_send evs = 1%nat
      /\ count is_edit evs = 0%nat
      /\ (forall e,
             channel_send w channel (published_text cfg data) = inl e ->
             In (Print (publish_error data e)) evs).
Proof.
  intros w st channel data Hidle Hchan Hdata.
  pose proof (update_status_idle w st channel data Hidle Hchan Hdata) as Hrun.
  cbv zeta in Hrun. rewrite Hrun.
  destruct (fetch_events_counts w) as [Hfe Hfs].
  destruct (channel_send w channel (published_text cfg data)) as [e | m];
    eexists; (split; [unfold emit_on; rewrite ?Hidle; reflexivity |]);
    (split; [reflexivity |]).
  - split; [solve_in | split; [count_tick Hfs | split; [count_tick Hfe |]]].
    intros e' [= <-]. solve_in.
  - split; [solve_in | split; [count_tick Hfs | split; [count_tick Hfe |]]].
    intros e' [=].
Qed.

(** X9.  A tick that holds no message posts the text of the cycle once
    and edits nothing.  If the post goes through, the message it returns
    becomes [status_message]; if it is rejected, the error is printed, the
    tick returns and still no message is held. *)
Theorem post_when_no_message_held :
  forall (w : World) (st : State) (channel : Channel) (data : StatusData),
    status_message st = None ->
    fetch_channel w (CHANNEL_ID cfg) = inr channel ->
    result_of (fetch_server_status cfg) w = inr data ->
    exists evs,
      fst (update_status cfg w st) =
      {| status_message :=
           match channel_send w channel (published_text cfg data) with
           | inr m => Some m
           | inl _ => None
           end;
         output := (output st ++ evs)%list |}
      /\ snd (update_status cfg w st) = inr tt
      /\ In (ChannelSend channel (published_text cfg data)) evs
      /\ count is_channel_send evs = 1%nat
      /\ count is_edit evs = 0%nat
      /\ (forall e,
             channel_send w channel (published_text cfg data) = inl e ->
             In (Print (publish_error data e)) evs).
Proof. exact update_status_idle_summary. Qed.

(** X10.  A tick raises exactly when the channel cannot be fetched, and
    then it has done nothing else.  Once the channel is found the tick
    returns whatever the probe, the queries, the resolver and the chat
    platform answer, and it has made one publish attempt: an edit when a
    message is held, a post when none is. *)
Theorem tick_publishes_once_or_raises_at_fetch :
  forall (w : World) (st : State),
    match fetch_channel w (CHANNEL_ID cfg) with
    | inl e =>
        update_status cfg w st
        = (emit_on st [FetchChannel (CHANNEL_ID cfg)], inl e)
    | inr channel =>
        exists evs,
          snd (update_status cfg w st) = inr tt
          /\ output (fst (update_status cfg w st)) = (output st ++ evs)%list
          /\ count is_edit evs
             = (match status_message st with Some _ => 1 | None => 0 end)%nat
          /\ count is_channel_send evs
             = (match status_message st with Some _ => 0 | None => 1 end)%nat
    end.
Proof.
  intros w st.
  destruct (fetch_channel w (CHANNEL_ID cfg)) as [e | channel] eqn:Hchan.
  - now apply update_status_channel_lost.
  - destruct (fetch_server_status_returns cfg w) as [data Hdata].
    destruct (fetch_events_counts w) as [Hfe Hfs].
    destruct (status_message st) as [m |] eqn:Hheld.
    + rewrite (update_status_holding cfg w st m channel data Hheld Hchan Hdata).
      destruct (edit_events_counts w data m) as [He Hs].
      eexists. split; [reflexivity |]. split; [reflexivity |].
      change (FetchChannel ?id :: ?l)%list with ([FetchChannel id] ++ l)%list.
      rewrite !count_app, Hfe, Hfs, He, Hs. split; reflexivity.
    + destruct (update_status_idle_summary w st channel data Hheld Hchan Hdata)
        as (evs & Hst & Hres & _ & Hsends & Hedits & _).
      exists evs. rewrite Hst. repeat split; assumption.
Qed.

(** X11.  On a tick whose channel is found and whose host probe fails,
    neither query and no RCON session is attempted, and what is published
    is the host-down banner, by an edit of the held message or by a post
    when none is held; a rejection is printed and the tick returns. *)
Theorem host_down_tick_publishes_banner :
  forall (w : World) (st : State) (channel : Channel) (e : exn),
    fetch_channel w (CHANNEL_ID cfg) = inr channel ->
    create_connection w (HOST_IP cfg) (HOST_PORT cfg) = Some e ->
    snd (update_status cfg w st) = inr tt
    /\ output (fst (update_status cfg w st)) =
       (output st ++
        [ FetchChannel (CHANNEL_ID cfg);
          SocketConnect (HOST_IP cfg) (HOST_PORT cfg);
          Print ("[WARN] Host check failed: " ++ exn_str e);
          match status_message st with
          | Some m => MessageEdit m FALLBACK
          | None => ChannelSend channel FALLBACK
          end ]
        ++ match status_message st with
           | Some m =>
               match message_edit w m FALLBACK with
               | Some e' =>
                   [ Print ("[ERROR] Discord fallback failed: "
                            ++ exn_str e') ]
               | None => []
               end
           | None =>
               match channel_send w channel FALLBACK with
               | inl e' =>
                   [ Print ("[ERROR] Discord fallback failed: "
                            ++ exn_str e') ]
               | inr _ => []
               end
           end)%list.
Proof.
  intros w st channel e Hchan Hdown.
  assert (Hdata : result_of (fetch_server_status cfg) w
                  = inr (initial_vars false))
    by (unfold result_of; now rewrite (fetch_host_down cfg w fresh e Hdown)).
  assert (Hevs : events_of (fetch_server_status cfg) w
                 = [ SocketConnect (HOST_IP cfg) (HOST_PORT cfg);
                     Print ("[WARN] Host check failed: " ++ exn_str e) ])
    by (unfold events_of; now rewrite (fetch_host_down cfg w fresh e Hdown)).
  destruct (status_message st) as [m |] eqn:Hheld.
  - rewrite (update_status_holding cfg w st m channel _ Hheld Hchan Hdata).
    rewrite Hevs. unfold edit_events, published_text, publish_error.
    cbn [host_is_up initial_vars fst snd emit_on output app].
    now destruct (message_edit w m FALLBACK).
  - pose proof (update_status_idle w st channel _ Hheld Hchan Hdata) as Hrun.
    cbv zeta in Hrun. rewrite Hrun, Hevs.
    unfold published_text, publish_error.
    cbn [host_is_up initial_vars app].
    destruct (channel_send w channel FALLBACK);
      cbn [fst snd emit_on output app];
      rewrite <- ?app_assoc; cbn [app]; now rewrite ?app_nil_r.
Qed.

(** X12.  Over any run of scheduled ticks that starts with a message
    held, whatever the worlds answer and however many edits are rejected,
    the loop never posts to the channel and [status_message] stays on the
    message it started with. *)
Theorem held_message_never_replaced :
  forall (ticks : list World) (st : State) (m : Message),
    status_message st = Some m ->
    exists evs,
      fst (run_ticks cfg ticks st) = emit_on st evs
      /\ status_message (fst (run_ticks cfg ticks st)) = Some m
      /\ count is_channel_send evs = 0%nat.
Proof.
  induction ticks as [| w later IH]; intros st m Hheld.
  - exists []. cbn [run_ticks fst]. rewrite emit_on_nil.
    repeat split. exact Hheld.
  - cbn [run_ticks].
    destruct (fetch_channel w (CHANNEL_ID cfg)) as [e | channel] eqn:Hchan.
    + rewrite (update_status_channel_lost w st e Hchan).
      eexists. split; [reflexivity |]. split; [exact Hheld | reflexivity].
    + destruct (fetch_server_status_returns cfg w) as [data Hdata].
      rewrite (update_status_holding cfg w st m channel data Hheld Hchan Hdata).
      match goal with
      | |- context [run_ticks cfg later (emit_on st ?evs1)] =>
          destruct (IH (emit_on st evs1) m Hheld) as (evs2 & Hst & Hm & Hc);
          exists (evs1 ++ evs2)%list
      end.
      rewrite Hst, emit_on_app.
      split; [reflexivity |]. split; [exact Hheld |].
      rewrite count_app, Hc.
      destruct (fetch_events_counts w) as [_ Hfs].
      destruct (edit_events_counts w data m) as [_ Hs].
      change (FetchChannel ?id :: ?l)%list with ([FetchChannel id] ++ l)%list.
      now rewrite !count_app, Hfs, Hs.
Qed.

End Scheduler.

Lemma post_when_no_message_held_witness :
  exists evs,
    fst (update_status Sample.cfg (Sample.up "The time is 7000") fresh) =
    {| status_message := Some (Msg 7); output := evs |}
    /\ count is_channel_send evs = 1%nat
    /\ count is_edit evs = 0%nat.
Proof.
  destruct (post_when_no_message_held Sample.cfg
              (Sample.up "The time is 7000") fresh (Chan 42)
              (online_snapshot Sample.status Sample.query MIDDAY)
              eq_refl eq_refl eq_refl)
    as (evs & Hst & _ & _ & Hsends & Hedits & _).
  exists evs. repeat split; assumption.
Defined.

Lemma host_down_tick_publishes_banner_witness :
  output (fst (update_status Sample.cfg Sample.host_down_edit_rejected
                             Sample.holding)) =
  [ FetchChannel 42;
    SocketConnect "10.0.0.7" 22;
    Print "[WARN] Host check failed: [Errno 111] Connection refused";
    MessageEdit (Msg 1) FALLBACK;
    Print "[ERROR] Discord fallback failed: 429 Too Many Requests" ].
Proof.
  destruct (host_down_tick_publishes_banner Sample.cfg
              Sample.host_down_edit_rejected Sample.holding (Chan 42)
              Sample.refused eq_refl eq_refl) as [_ H].
  exact H.
Defined.

Lemma held_message_never_replaced_witness :
  status_message
    (fst (run_ticks Sample.cfg
            [Sample.edit_rejected; Sample.host_down; Sample.query_down]
            Sample.holding)) = Some (Msg 1).
Proof.
  destruct (held_message_never_replaced Sample.cfg
              [Sample.edit_rejected; Sample.host_down; Sample.query_down]
              Sample.holding (Msg 1) eq_refl) as (evs & _ & H & _).
  exact H.
Defined.

(** ** Start-up *)

Section Startup.

Variable cfg : Config.

(** Unfolding the start-up computation down to the answers it gets. *)
Ltac run_start_bot :=
  cbv beta iota zeta delta
      [Boot.start_bot Boot.btry Boot.bbind Boot.of_cycle
       Boot.fetch_status_message Boot.startup_unit Boot.startup
       Boot.assign_status_message Boot.ask Boot.bret call print emit emit_on];
  cbn [status_message output Boot.held Boot.log map app fst snd].

Ltac settle :=
  cbv beta iota zeta;
  cbn [status_message output Boot.held Boot.log map app fst snd];
  rewrite <- ?app_assoc;
  cbn [app].

(** X13.  The loop of [fetch_status_message] returns the first message of
    the history written by the bot itself, the most recent one as the
    history is read newest first: every message before it has another
    author; it returns nothing exactly when no message of the history is
    the bot's. *)
Theorem first_own_is_most_recent_own :
  forall (me : Boot.User) (msgs : list (Message * Boot.User)),
    match Boot.first_own me msgs with
    | Some m =>
        exists newer author older,
          msgs = (newer ++ (m, author) :: older)%list
          /\ Boot.same_user author me = true
          /\ forallb (fun entry => negb (Boot.same_user (snd entry) me)) newer
             = true
    | None =>
        forallb (fun entry => negb (Boot.same_user (snd entry) me)) msgs = true
    end.
Proof.
  intros me msgs. induction msgs as [| [msg author] older IH].
  - reflexivity.
  - cbn [Boot.first_own].
    destruct (Boot.same_user author me) eqn:Hsame.
    + exists [], author, older. repeat split. exact Hsame.
    + destruct (Boot.first_own me older) as [m |].
      * destruct IH as (newer & author' & older' & -> & Hown & Hnewer).
        exists ((msg, author) :: newer), author', older'.
        repeat split; [exact Hown |].
        cbn [forallb snd]. now rewrite Hsame, Hnewer.
      * cbn [forallb snd]. now rewrite Hsame, IH.
Qed.

(** X14.  [start_bot] never raises.  It posts at most once, it starts the
    loop at most once, and whenever it has called the start of the loop a
    message is held. *)
Theorem start_bot_never_raises :
  forall (env : Boot.Env) (w : World) (st : Boot.BootState),
    exists held' es,
      Boot.start_bot cfg env w st =
      ({| Boot.held := held'; Boot.log := (Boot.log st ++ es)%list |}, inr tt)
      /\ (List.length (filter Boot.is_post es) <= 1)%nat
      /\ (List.length (filter Boot.is_loop_start es) <= 1)%nat
      /\ (existsb Boot.is_loop_start es = true -> held' <> None).
Proof.
  intros env w st. run_start_bot.
  destruct (fetch_channel w (CHANNEL_ID cfg)) as [e | channel].
  { eexists. eexists. settle.
    split; [reflexivity |]. cbn. repeat split; try lia; try discriminate. }
  cbn [app].
  destruct (Boot.channel_history env channel 20) as [e | msgs].
  { eexists. eexists. settle.
    split; [reflexivity |]. cbn. repeat split; try lia; try discriminate. }
  destruct (Boot.first_own (Boot.bot_user env) msgs) as [m |].
  - destruct (Boot.change_interval env (Boot.LOOP_INTERVAL env)).
    { eexists. eexists. settle.
      split; [reflexivity |]. cbn. repeat split; try lia; try discriminate. }
    destruct (Boot.loop_start env);
      eexists; eexists; settle;
      (split; [reflexivity |]); cbn; repeat split; try lia; try discriminate.
  - destruct (channel_send w channel Boot.INITIALIZING) as [e | m].
    { eexists. eexists. cbn [app]. settle.
      split; [reflexivity |]. cbn. repeat split; try lia; try discriminate. }
    cbn [app].
    destruct (Boot.change_interval env (Boot.LOOP_INTERVAL env)).
    { eexists. eexists. settle.
      split; [reflexivity |]. cbn. repeat split; try lia; try discriminate. }
    destruct (Boot.loop_start env);
      eexists; eexists; settle;
      (split; [reflexivity |]); cbn; repeat split; try lia; try discriminate.
Qed.

(** X15.  When the channel and its history are fetched and the history
    holds a message of the bot, start-up takes the most recent such
    message as [status_message] and posts nothing, whatever was held
    before; with a loop object that accepts both calls, it then sets the
    interval and starts the loop, and that is all it does. *)
Theorem startup_adopts_own_message :
  forall (env : Boot.Env) (w : World) (st : Boot.BootState)
         (channel : Channel) (msgs : list (Message * Boot.User))
         (m : Message),
    fetch_channel w (CHANNEL_ID cfg) = inr channel ->
    Boot.channel_history env channel 20 = inr msgs ->
    Boot.first_own (Boot.bot_user env) msgs = Some m ->
    (exists es,
        fst (Boot.start_bot cfg env w st) =
        {| Boot.held := Some m; Boot.log := (Boot.log st ++ es)%list |}
        /\ List.length (filter Boot.is_post es) = 0%nat)
    /\ (Boot.change_interval env (Boot.LOOP_INTERVAL env) = None ->
        Boot.loop_start env = None ->
        Boot.start_bot cfg env w st =
        ({| Boot.held := Some m;
            Boot.log :=
              (Boot.log st ++
               [ Boot.Core (FetchChannel (CHANNEL_ID cfg));
                 Boot.Startup (Boot.ChannelHistory channel 20);
                 Boot.Startup (Boot.ChangeInterval (Boot.LOOP_INTERVAL env));
                 Boot.Startup Boot.LoopStart ])%list |},
         inr tt)).
Proof.
  intros env w st channel msgs m Hchan Hhist Hown. split.
  - run_start_bot. rewrite Hchan. cbn [app]. rewrite Hhist, Hown.
    destruct (Boot.change_interval env (Boot.LOOP_INTERVAL env)).
    { eexists. settle. split; reflexivity. }
    destruct (Boot.loop_start env);
      eexists; settle; split; reflexivity.
  - intros Hint Hstart. run_start_bot.
    rewrite Hchan. cbn [app]. rewrite Hhist, Hown, Hint, Hstart.
    settle; reflexivity.
Qed.

(** X16.  When the channel and its history are fetched and the history
    holds no message of the bot, start-up posts the initializing
    placeholder once.  If the post goes through, the posted message
    becomes [status_message]; if it is rejected, the loop is not started,
    the critical line is printed, and no message is held any more, even if
    one was held before. *)
Theorem startup_posts_placeholder :
  forall (env : Boot.Env) (w : World) (st : Boot.BootState)
         (channel : Channel) (msgs : list (Message * Boot.User)),
    fetch_channel w (CHANNEL_ID cfg) = inr channel ->
    Boot.channel_history env channel 20 = inr msgs ->
    Boot.first_own (Boot.bot_user env) msgs = None ->
    (forall m,
        channel_send w channel Boot.INITIALIZING = inr m ->
        exists es,
          fst (Boot.start_bot cfg env w st) =
          {| Boot.held := Some m; Boot.log := (Boot.log st ++ es)%list |}
          /\ In (Boot.Core (ChannelSend channel Boot.INITIALIZING)) es
          /\ List.length (filter Boot.is_post es) = 1%nat)
    /\ (forall e,
           channel_send w channel Boot.INITIALIZING = inl e ->
           Boot.start_bot cfg env w st =
           ({| Boot.held := None;
               Boot.log :=
                 (Boot.log st ++
                  [ Boot.Core (FetchChannel (CHANNEL_ID cfg));
                    Boot.Startup (Boot.ChannelHistory channel 20);
                    Boot.Core (ChannelSend channel Boot.INITIALIZING);
                    Boot.Core (Print ("[CRITICAL] Startup failed: "
                                      ++ exn_str e)) ])%list |},
            inr tt)).
Proof.
  intros env w st channel msgs Hchan Hhist Hown. split.
  - intros m Hsend. run_start_bot.
    rewrite Hchan. cbn [app]. rewrite Hhist, Hown, Hsend. cbn [app].
    destruct (Boot.change_interval env (Boot.LOOP_INTERVAL env)).
    { eexists. settle.
      split; [reflexivity |]. split; [cbn; tauto | reflexivity]. }
    destruct (Boot.loop_start env);
      eexists; settle;
      (split; [reflexivity |]); (split; [cbn; tauto | reflexivity]).
  - intros e Hsend. run_start_bot.
    rewrite Hchan. cbn [app]. rewrite Hhist, Hown, Hsend. cbn [app].
    settle; reflexivity.
Qed.

(** X17.  When the channel or its history cannot be fetched, start-up
    prints the critical line with the cause and stops there: nothing is
    posted, the loop is not started, and [status_message] is as it was. *)
Theorem startup_stops_without_history :
  forall (env : Boot.Env) (w : World) (st : Boot.BootState) (e : exn),
    (fetch_channel w (CHANNEL_ID cfg) = inl e ->
     Boot.start_bot cfg env w st =
     (Boot.log_on st
        [ Boot.Core (FetchChannel (CHANNEL_ID cfg));
          Boot.Core (Print ("[CRITICAL] Startup failed: " ++ exn_str e)) ],
      inr tt))
    /\ (forall channel,
           fetch_channel w (CHANNEL_ID cfg) = inr channel ->
           Boot.channel_history env channel 20 = inl e ->
           Boot.start_bot cfg env w st =
           (Boot.log_on st
              [ Boot.Core (FetchChannel (CHANNEL_ID cfg));
                Boot.Startup (Boot.ChannelHistory channel 20);
                Boot.Core (Print ("[CRITICAL] Startup failed: "
                                  ++ exn_str e)) ],
            inr tt)).
Proof.
  intros env w st e. split.
  - intros Hchan. run_start_bot. rewrite Hchan.
    unfold Boot.log_on. settle. reflexivity.
  - intros channel Hchan Hhist. run_start_bot.
    rewrite Hchan. cbn [app]. rewrite Hhist.
    unfold Boot.log_on. settle. reflexivity.
Qed.

End Startup.

Lemma startup_adopts_own_message_witness :
  Boot.start_bot Sample.cfg
    (Scenario.env (inr [ (Msg 30, Scenario.alice); (Msg 20, Scenario.me);
                         (Msg 10, Scenario.me) ]))
    (Sample.up "The time is 7000") Scenario.booting =
  ({| Boot.held := Some (Msg 20);
      Boot.log :=
        [ Boot.Core (FetchChannel 42);
          Boot.Startup (Boot.ChannelHistory (Chan 42) 20);
          Boot.Startup (Boot.ChangeInterval 60);
          Boot.Startup Boot.LoopStart ] |},
   inr tt).
Proof.
  destruct (startup_adopts_own_message Sample.cfg
              (Scenario.env (inr [ (Msg 30, Scenario.alice);
                                   (Msg 20, Scenario.me);
                                   (Msg 10, Scenario.me) ]))
              (Sample.up "The time is 7000") Scenario.booting (Chan 42)
              [ (Msg 30, Scenario.alice); (Msg 20, Scenario.me);
                (Msg 10, Scenario.me) ]
              (Msg 20) eq_refl eq_refl eq_refl) as [_ H].
  apply H; reflexivity.
Defined.

Lemma startup_posts_placeholder_witness :
  exists es,
    fst (Boot.start_bot Sample.cfg
           (Scenario.env (inr [ (Msg 30, Scenario.alice) ]))
           (Sample.up "The time is 7000") Scenario.booting) =
    {| Boot.held := Some (Msg 7); Boot.log := es |}
    /\ List.length (filter Boot.is_post es) = 1%nat.
Proof.
  destruct (startup_posts_placeholder Sample.cfg
              (Scenario.env (inr [ (Msg 30, Scenario.alice) ]))
              (Sample.up "The time is 7000") Scenario.booting (Chan 42)
              [ (Msg 30, Scenario.alice) ] eq_refl eq_refl eq_refl)
    as [H _].
  destruct (H (Msg 7) eq_refl) as (es & Hst & _ & Hposts).
  exists es. split; assumption.
Defined.

Lemma startup_stops_without_history_witness :
  Boot.start_bot Sample.cfg (Scenario.env (inl Scenario.forbidden))
    (Sample.up "The time is 7000") Scenario.booting =
  ({| Boot.held := None;
      Boot.log :=
        [ Boot.Core (FetchChannel 42);
          Boot.Startup (Boot.ChannelHistory (Chan 42) 20);
          Boot.Core (Print "[CRITICAL] Startup failed: 403 Forbidden") ] |},
   inr tt).
Proof.
  destruct (startup_stops_without_history Sample.cfg
              (Scenario.env (inl Scenario.forbidden))
              (Sample.up "The time is 7000") Scenario.booting
              Scenario.forbidden) as [_ H].
  apply (H (Chan 42)); reflexivity.
Defined.

(** ** The probe and the integer literal *)

Lemma py_int_sign limit c r :
  py_int limit (String c r) =
  let negative := Ascii.eqb c "-" in
  let body := if Ascii.eqb c "+" || Ascii.eqb c "-" then r else String c r in
  match scan_digits false 0 0 body with
  | None => inl (invalid_literal (String c r))
  | Some (v, ndigits, rest) =>
      if ((640 <? ndigits) && (0 <? limit) && (limit <? ndigits))%nat
      then inl (too_many_digits limit ndigits)
      else if truthy rest then inl (invalid_literal (String c r))
      else inr (if negative then - v else v)
  end.
Proof.
  destruct c as [[|] [|] [|] [|] [|] [|] [|] [|]]; reflexivity.
Qed.

(** X18.  [check_tcp_port] never raises: it makes one connection attempt,
    prints one line (the debug line on success, the warning with the cause
    on failure), and returns [True] exactly when the connection was made. *)
Theorem probe_reports_reachability :
  forall (ip : string) (port : Z) (label : string) (w : World) (st : State),
    check_tcp_port ip port label w st =
    (emit_on st
       [ SocketConnect ip port;
         Print match create_connection w ip port with
               | None => "[DEBUG] " ++ label ++ " " ++ str_of_int port
                         ++ " reachable on " ++ ip
               | Some e => "[WARN] " ++ label ++ " check failed: "
                           ++ exn_str e
               end ],
     inr (succeeded (create_connection w ip port))).
Proof.
  intros ip port label w st.
  destruct (create_connection w ip port) as [e |] eqn:H.
  - now rewrite (check_tcp_port_down ip port label w st e H).
  - now rewrite (check_tcp_port_up ip port label w st H).
Qed.

Lemma py_int_raises_value_error limit token e :
  py_int limit token = inl e -> exn_type e = "ValueError".
Proof.
  destruct token as [| c r]; [now intros [= <-] |].
  rewrite py_int_sign. cbv zeta.
  destruct (scan_digits false 0 0 _) as [[[v k] rest] |];
    [| now intros [= <-]].
  destruct ((640 <? k) && (0 <? limit) && (limit <? k))%nat;
    [now intros [= <-] |].
  destruct (truthy rest); [now intros [= <-] | discriminate].
Qed.

Lemma truthy_snoc cur c : truthy (cur ++ String c "") = true.
Proof. now destruct cur. Qed.

Lemma split_from_nil s :
  forall cur,
    split_from cur s = [] ->
    truthy cur = false /\ all_chars isspace s = true.
Proof.
  induction s as [| c r IH]; intros cur; cbn [split_from all_chars].
  - destruct (truthy cur); [discriminate | now split].
  - destruct (isspace c).
    + destruct (truthy cur); [discriminate |].
      intros H. destruct (IH "" H) as [_ Hr]. now split.
    + intros H. destruct (IH _ H) as [Hcur _].
      now rewrite truthy_snoc in Hcur.
Qed.

Lemma last_item_raises items e :
  last_item items = inl e ->
  items = [] /\ e = Exn "IndexError" "list index out of range".
Proof.
  induction items as [| x rest IH]; cbn [last_item].
  - intros [= <-]. now split.
  - destruct rest as [| y rest']; [discriminate |].
    intros H. destruct (IH H) as [Hnil _]. discriminate Hnil.
Qed.

Section ParseFailure.

Variable cfg : Config.

(** X19.  When the parse of the reply raises, the cause is one of two:
    [IndexError] for a reply that is empty or all white space, which has no
    last token, and [ValueError] from [int] for every other reply.  After a
    session that answered, the resolver prints the warning naming that
    exception and returns the "RCON unavailable" label. *)
Theorem unparsed_reply_names_its_cause :
  forall (reply : string) (e : exn),
    parse_ticks cfg reply = inl e ->
    (if all_chars isspace reply
     then e = Exn "IndexError" "list index out of range"
     else exn_type e = "ValueError")
    /\ (forall ip port password w st,
           truthy password = true ->
           rcon_connect w ip port = None ->
           rcon_login w password = None ->
           rcon_run w "time query daytime" = inr reply ->
           get_time_of_day_via_rcon cfg ip port password w st =
           (emit_on st (session_events ip port password
                        ++ [rcon_warning e])%list,
            inr RCON_UNAVAILABLE)).
Proof.
  intros reply e Hparse. split.
  - unfold parse_ticks in Hparse. rewrite split_strip in Hparse.
    destruct (last_item (split reply)) as [e' | token] eqn:Hlast.
    + injection Hparse as ->.
      destruct (last_item_raises _ _ Hlast) as [Hnil ->].
      destruct (split_from_nil reply "" Hnil) as [_ Hblank].
      now rewrite Hblank.
    + destruct (all_chars isspace reply) eqn:Hblank.
      * unfold split in Hlast.
        rewrite (split_from_blank reply Hblank "") in Hlast.
        discriminate Hlast.
      * exact (py_int_raises_value_error _ token e Hparse).
  - intros ip port password w st Hpw Hconn Hlogin Hrun.
    now rewrite (get_time_of_day_answered cfg ip port password reply w st
                   Hpw Hconn Hlogin Hrun), Hparse.
Qed.

End ParseFailure.

Lemma unparsed_reply_names_its_cause_witness :
  exn_type (invalid_literal "x5") = "ValueError".
Proof.
  destruct (unparsed_reply_names_its_cause Sample.cfg "The time is x5"
              (invalid_literal "x5") eq_refl) as [H _].
  exact H.
Defined.

Lemma resolver_always_returns_a_label_witness :
  exists evs label,
    get_time_of_day_via_rcon Sample.cfg "10.0.0.7" 25575 "secret"
      (Sample.up "The time is 7000") fresh
    = (emit_on fresh evs, inr label)
    /\ In label TIME_LABELS
    /\ (label = RCON_NOT_CONFIGURED <-> "secret" = "").
Proof.
  apply (resolver_always_returns_a_label Sample.cfg "10.0.0.7" 25575 "secret"
           (Sample.up "The time is 7000") fresh).
Defined.

Lemma start_bot_never_raises_witness :
  exists held' es,
    Boot.start_bot Sample.cfg (Scenario.env (inr []))
      (Sample.up "The time is 7000") Scenario.booting =
    ({| Boot.held := held';
        Boot.log := (Boot.log Scenario.booting ++ es)%list |}, inr tt)
    /\ (List.length (filter Boot.is_post es) <= 1)%nat
    /\ (List.length (filter Boot.is_loop_start es) <= 1)%nat
    /\ (existsb Boot.is_loop_start es = true -> held' <> None).
Proof.
  apply (start_bot_never_raises Sample.cfg (Scenario.env (inr []))
           (Sample.up "The time is 7000") Scenario.booting).
Defined.
